(** * Kaizen: continual-learning data preparation and predictive distillation

    A shallow embedding of

    - [kaizen/distillers/predictive.py] (the predictive distillation wrapper:
      [learnable_params] and [training_step]), and
    - [kaizen/utils/classification_dataloader.py] (the data preparation
      orchestrator [prepare_data] and its helpers),

    together with the properties their specification states about them.

    Python exceptions are values of [Py.exn] carried by the error monad
    [Py.result]; Python floats are IEEE-754 binary64 values and tensor scalars
    are IEEE-754 values of the tensor's dtype, both through the executable
    specification of IEEE arithmetic in [SpecFloat]. *)

From Stdlib Require Import ZArith List String Bool Lia.
From Stdlib Require Import Floats.SpecFloat.
Import ListNotations.

Local Open Scope string_scope.
Local Open Scope list_scope.
Local Open Scope Z_scope.
#[local] Set Warnings "-register-all".

(* ===================================================================== *)
(** * Python runtime: exceptions, results, [range], floats                *)
(* ===================================================================== *)

Module Py.

(** The exception classes the modelled code can raise. *)
Inductive exn : Type :=
| Exception (msg : string)          (* raise Exception("...") *)
| AssertionError                    (* a failed [assert] *)
| AttributeError (attr : string)    (* obj.attr with no such attribute *)
| TypeError (msg : string)          (* range(None), [..] + 1, ... *)
| UnboundLocalError (var : string)  (* a local read before assignment *)
| ZeroDivisionError                 (* x / 0.0 on Python floats *)
| ValueError (msg : string).        (* raised by library calls *)

Inductive result (A : Type) : Type :=
| Ok (a : A)
| Raise (e : exn).
Arguments Ok {A} a.
Arguments Raise {A} e.

Definition bind {A B} (r : result A) (k : A -> result B) : result B :=
  match r with
  | Ok a => k a
  | Raise e => Raise e
  end.

Definition raises {A} (r : result A) : bool :=
  match r with Ok _ => false | Raise _ => true end.

(** [range(n)]: the integers [0 .. n-1], empty when [n <= 0]. *)
Definition range (n : Z) : list Z :=
  map Z.of_nat (seq 0 (Z.to_nat n)).

(** Python [float] is IEEE-754 binary64. *)
Definition float : Type := spec_float.
Definition float_prec : Z := 53.
Definition float_emax : Z := 1024.

(** [float(z)] for an integer literal. *)
Definition float_of_int (z : Z) : float :=
  binary_normalize float_prec float_emax z 0 false.

(** [x >= y], [x > y], [x < y], [x == y] on floats: false when either is NaN. *)
Definition float_ge (x y : float) : bool := SFleb y x.
Definition float_gt (x y : float) : bool := SFltb y x.
Definition float_lt (x y : float) : bool := SFltb x y.
Definition float_eq (x y : float) : bool := SFeqb x y.

(** [x / y] on floats: CPython raises [ZeroDivisionError] when the divisor
    compares equal to zero (either sign), and otherwise divides in IEEE
    arithmetic. *)
Definition float_truediv (x y : float) : result float :=
  match y with
  | S754_zero _ => Raise ZeroDivisionError
  | _ => Ok (SFdiv float_prec float_emax x y)
  end.

End Py.

Notation "x <- c1 ;; c2" := (Py.bind c1 (fun x => c2))
  (at level 61, c1 at next level, right associativity).
Notation "' pat <- c1 ;; c2" :=
  (Py.bind c1 (fun x => match x with pat => c2 end))
  (at level 61, pat pattern, c1 at next level, right associativity).

(* ===================================================================== *)
(** * Tensor scalars                                                      *)
(* ===================================================================== *)

(** A zero-dimensional floating tensor of a dtype with [prec] mantissa bits
    and exponent bound [emax] (float32: 24, 128; float16: 11, 16).  A Python
    number combined with such a tensor is first converted to the dtype. *)
Module Tensor.
Section Dtype.
Variables prec emax : Z.

Definition scalar : Type := spec_float.

(** A Python float operand, rounded to the dtype. *)
Definition of_float (x : Py.float) : scalar :=
  match x with
  | S754_finite s m e => binary_round prec emax s m e
  | _ => x
  end.

(** A Python int operand. *)
Definition of_int (z : Z) : scalar := binary_normalize prec emax z 0 false.

Definition add (x y : scalar) : scalar := SFadd prec emax x y.
Definition mul (x y : scalar) : scalar := SFmul prec emax x y.
Definition div (x y : scalar) : scalar := SFdiv prec emax x y.
Definition sub (x y : scalar) : scalar := SFsub prec emax x y.
Definition sqrt (x : scalar) : scalar := SFsqrt prec emax x.

(** [torch.isfinite]. *)
Definition isfinite (x : scalar) : bool :=
  match x with
  | S754_zero _ | S754_finite _ _ _ => true
  | S754_infinity _ | S754_nan => false
  end.
End Dtype.

(** Two loss values are the same when they are identical or compare equal
    ([-0.0] and [+0.0] compare equal). *)
Definition same (x y : spec_float) : Prop := x = y \/ SFeqb x y = true.
End Tensor.

(* ===================================================================== *)
(** * kaizen/distillers/predictive.py                                      *)
(* ===================================================================== *)

Module Predictive.

(** One entry of the optimizer's parameter-group list: a dict with the keys
    ["name"], ["params"] and, when given, ["lr"] and ["weight_decay"]. *)
Record param_group (P : Type) : Type := mk_param_group {
  pg_name : string;
  pg_params : P;
  pg_lr : option Py.float;
  pg_weight_decay : option Py.float
}.
Arguments mk_param_group {P}.
Arguments pg_name {P}.
Arguments pg_params {P}.
Arguments pg_lr {P}.
Arguments pg_weight_decay {P}.

(** What [super().training_step] returns: the dict entries ["loss"], ["z"]
    and ["frozen_z"] read by the wrapper. *)
Record step_out (E : Type) : Type := mk_step_out {
  out_loss : Tensor.scalar;
  out_z : E * E;
  out_frozen_z : E * E
}.
Arguments mk_step_out {E}.
Arguments out_loss {E}.
Arguments out_z {E}.
Arguments out_frozen_z {E}.

(** What a training step leaves behind: the values passed to [self.log] and
    the loss handed to the optimizer. *)
Record step_result : Type := mk_step_result {
  logged : list (string * Tensor.scalar);
  returned_loss : Tensor.scalar
}.

Section PredictiveDistillWrapper.
(** dtype of the loss tensors *)
Variables prec emax : Z.
(** embeddings, batches and parameter iterators of the wrapped method *)
Variables (embedding batch params : Type).
(** [self.distill_predictor]: Linear, BatchNorm1d, ReLU, Linear with the
    current weights *)
Variable distill_predictor : embedding -> embedding.
Variable distill_predictor_parameters : params.
(** [kaizen.losses.byol.byol_loss_func] *)
Variable byol_loss_func : embedding -> embedding -> Tensor.scalar.
(** the wrapped class [base_distill_wrapper(Method)] *)
Variable super_training_step : batch -> Z -> Py.result (step_out embedding).
Variable super_learnable_params : Py.result (list (param_group params)).

(** The attributes of [self] the two methods read. *)
Record self_t : Type := mk_self {
  distill_lamb : Py.float;
  lr : Py.float;
  weight_decay : Py.float
}.

(** The ["lr"] entry of the predictor's group:
    [self.lr if self.distill_lamb >= 1 else self.lr / self.distill_lamb]. *)
Definition distill_predictor_lr (self : self_t) : Py.result Py.float :=
  if Py.float_ge (distill_lamb self) (Py.float_of_int 1)
  then Py.Ok (lr self)
  else Py.float_truediv (lr self) (distill_lamb self).

(** [learnable_params]: the extra group is built first, then appended to
    the parent's groups. *)
Definition learnable_params (self : self_t)
  : Py.result (list (param_group params)) :=
  predictor_lr <- distill_predictor_lr self ;;
  let extra_learnable_params :=
    [ mk_param_group "distill_predictor" distill_predictor_parameters
        (Some predictor_lr) (Some (weight_decay self)) ] in
  parent <- super_learnable_params ;;
  Py.Ok (parent ++ extra_learnable_params).

(** [(byol_loss_func(p1, frozen_z1) + byol_loss_func(p2, frozen_z2)) / 2] *)
Definition distill_loss_of (out : step_out embedding) : Tensor.scalar :=
  let '(z1, z2) := out_z out in
  let '(frozen_z1, frozen_z2) := out_frozen_z out in
  let p1 := distill_predictor z1 in
  let p2 := distill_predictor z2 in
  Tensor.div prec emax
    (Tensor.add prec emax (byol_loss_func p1 frozen_z1)
                          (byol_loss_func p2 frozen_z2))
    (Tensor.of_int prec emax 2).

(** [training_step]. *)
Definition training_step (self : self_t) (b : batch) (batch_idx : Z)
  : Py.result step_result :=
  out <- super_training_step b batch_idx ;;
  let distill_loss := distill_loss_of out in
  Py.Ok {| logged := [("train_predictive_distill_loss", distill_loss)];
           returned_loss :=
             Tensor.add prec emax (out_loss out)
               (Tensor.mul prec emax
                  (Tensor.of_float prec emax (distill_lamb self))
                  distill_loss) |}.

End PredictiveDistillWrapper.

End Predictive.

(* ===================================================================== *)
(** * torch.utils.data and sklearn, as far as the data preparation uses them *)
(* ===================================================================== *)

Module Torch.

(** Dataset objects.  A dataset is an ordered, indexable collection of
    (sample, label) pairs; labels are class ids.

    - [VisionDataset]: a dataset built by [prepare_datasets] (torchvision's
      CIFAR, STL10, ImageFolder, or DomainNetDataset); it has a [targets]
      attribute, the labels in index order.
    - [Subset d idxs tg]: [torch.utils.data.Subset(d, idxs)].  The class
      itself defines only [dataset] and [indices]; [tg] is the [targets]
      attribute when one has been set on the object.
    - [ConcatDataset ds]: [torch.utils.data.ConcatDataset(ds)], which
      defines [datasets] and [cumulative_sizes] and no [targets]. *)
Inductive Dataset (image : Type) : Type :=
| VisionDataset (items : list (image * Z))
| Subset (dataset : Dataset image) (indices : list nat)
         (targets : option (list Z))
| ConcatDataset (datasets : list (Dataset image)).
Arguments VisionDataset {image}.
Arguments Subset {image}.
Arguments ConcatDataset {image}.

Section Data.
Context {image : Type}.

(** [len(d)] *)
Fixpoint len (d : Dataset image) : nat :=
  match d with
  | VisionDataset items => List.length items
  | Subset _ indices _ => List.length indices
  | ConcatDataset datasets => list_sum (map len datasets)
  end.

(** [d.targets] *)
Definition get_targets (d : Dataset image) : Py.result (list Z) :=
  match d with
  | VisionDataset items => Py.Ok (map snd items)
  | Subset _ _ (Some tg) => Py.Ok tg
  | Subset _ _ None => Py.Raise (Py.AttributeError "targets")
  | ConcatDataset _ => Py.Raise (Py.AttributeError "targets")
  end.

(** [d[i]] *)
Fixpoint getitem (d : Dataset image) (i : nat) : option (image * Z) :=
  match d with
  | VisionDataset items => nth_error items i
  | Subset d' indices _ =>
      match nth_error indices i with
      | Some j => getitem d' j
      | None => None
      end
  | ConcatDataset datasets =>
      (fix walk (ds : list (Dataset image)) (i : nat) : option (image * Z) :=
         match ds with
         | [] => None
         | d' :: rest =>
             if (i <? len d')%nat then getitem d' i
             else walk rest (i - len d')%nat
         end) datasets i
  end.

(** The arguments [DataLoader] is constructed with. *)
Record DataLoader : Type := mk_DataLoader {
  dl_dataset : Dataset image;
  dl_batch_size : Z;
  dl_shuffle : bool;
  dl_num_workers : Z;
  dl_pin_memory : bool;
  dl_drop_last : bool
}.

(** [DataLoader(dataset, batch_size=.., shuffle=.., num_workers=..,
    pin_memory=.., drop_last=..)].  The constructor raises [ValueError]
    for a negative [num_workers]; then, with [shuffle=True], builds a
    [RandomSampler], which raises for an empty dataset; then builds a
    [BatchSampler], which raises unless [batch_size] is positive. *)
Definition new_DataLoader (dataset : Dataset image) (batch_size : Z)
    (shuffle : bool) (num_workers : Z) (pin_memory drop_last : bool)
  : Py.result DataLoader :=
  if num_workers <? 0 then
    Py.Raise (Py.ValueError "num_workers option should be non-negative")
  else if shuffle && (len dataset =? 0)%nat then
    Py.Raise (Py.ValueError "num_samples should be a positive integer value")
  else if batch_size <=? 0 then
    Py.Raise (Py.ValueError "batch_size should be a positive integer value")
  else
    Py.Ok {| dl_dataset := dataset; dl_batch_size := batch_size;
             dl_shuffle := shuffle; dl_num_workers := num_workers;
             dl_pin_memory := pin_memory; dl_drop_last := drop_last |}.
End Data.
Arguments DataLoader image : clear implicits.

End Torch.

(** [sklearn.model_selection.train_test_split] with [stratify] and
    [random_state].  The shuffling itself is the library's; what the model
    fixes is where its randomness comes from. *)
Module Sklearn.
Section TrainTestSplit.
(** a [numpy.random.RandomState] *)
Variable RandomState : Type.
(** [numpy.random.RandomState(seed)] *)
Variable seeded : Z -> RandomState.
(** the stratified shuffle split of [arrays] with train fraction
    [train_size] and class labels [stratify], drawing from a generator;
    it raises [ValueError] when the split is infeasible *)
Variable stratified_shuffle_split :
  list nat -> Py.float -> list Z -> RandomState ->
  Py.result (list nat * list nat).

(** [check_random_state]: [None] is the process-global generator of
    [numpy.random]; an int seeds a fresh generator. *)
Definition check_random_state (random_state : option Z)
    (global : RandomState) : RandomState :=
  match random_state with
  | None => global
  | Some seed => seeded seed
  end.

Definition train_test_split (arrays : list nat) (train_size : Py.float)
    (stratify : list Z) (random_state : option Z) (global : RandomState)
  : Py.result (list nat * list nat) :=
  stratified_shuffle_split arrays train_size stratify
    (check_random_state random_state global).
End TrainTestSplit.
End Sklearn.

(* ===================================================================== *)
(** * kaizen/utils/classification_dataloader.py                            *)
(* ===================================================================== *)

Module ClassificationDataloader.
Import Torch.

(** The augmentation pipelines of [prepare_transforms]; their contents are
    torchvision transforms and play no part below. *)
Inductive pipeline : Type :=
| cifar_pipeline | stl_pipeline | imagenet_pipeline | custom_pipeline.

Inductive transform : Type :=
| TrainTransform (p : pipeline)     (* pipeline["T_train"] *)
| ValTransform (p : pipeline).      (* pipeline["T_val"] *)

Definition pipelines : list (string * pipeline) :=
  [ ("cifar10", cifar_pipeline);
    ("cifar100", cifar_pipeline);
    ("stl10", stl_pipeline);
    ("imagenet100", imagenet_pipeline);
    ("imagenet", imagenet_pipeline);
    ("domainnet", imagenet_pipeline);
    ("custom", custom_pipeline) ].

Fixpoint dict_get {V : Type} (key : string) (d : list (string * V))
  : option V :=
  match d with
  | [] => None
  | (k, v) :: rest => if String.eqb key k then Some v else dict_get key rest
  end.

(** [x in xs] on strings *)
Definition str_in (x : string) (xs : list string) : bool :=
  existsb (String.eqb x) xs.

Definition prepare_transforms (dataset : string)
  : Py.result (transform * transform) :=
  match dict_get dataset pipelines with
  | None => Py.Raise Py.AssertionError        (* assert dataset in pipelines *)
  | Some pipeline => Py.Ok (TrainTransform pipeline, ValTransform pipeline)
  end.

(** [training_task_idx]: [None] by default, an int, or a list of ints. *)
Inductive task_idx_t : Type :=
| TaskIdxNone
| TaskIdxInt (i : Z)
| TaskIdxList (l : list Z).

(** The dataset constructors [prepare_datasets] calls, with their
    arguments. *)
Inductive dataset_ctor : Type :=
| TorchvisionCIFAR (cls : string) (root : string) (train download : bool)
                   (tf : transform)
| STL10 (root : string) (split : string) (download : bool) (tf : transform)
| ImageFolder (root : string) (tf : transform)
| DomainNetDataset (data_root image_list_root : string)
                   (domain_names : option string) (split : string)
                   (tf : transform) (return_domain : bool).

(** The keyword arguments of [prepare_data]. *)
Record args : Type := mk_args {
  dataset : string;
  data_dir : option string;
  train_dir : option string;
  val_dir : option string;
  batch_size : Z;
  num_workers : Z;
  train_domain : option string;
  semi_supervised : option Py.float;
  training_data_source : string;
  training_num_tasks : option Z;
  training_tasks : option (list (list Z));
  training_task_idx : task_idx_t;
  training_split_strategy : option string;
  training_split_seed : option Z;
  replay : bool;
  replay_proportion : option Py.float;
  replay_memory_bank_size : option Z
}.

(** The defaults of the signature. *)
Definition default_args (dataset : string) : args :=
  {| dataset := dataset; data_dir := None; train_dir := None;
     val_dir := None; batch_size := 64; num_workers := 4;
     train_domain := None; semi_supervised := None;
     training_data_source := "all_tasks"; training_num_tasks := None;
     training_tasks := None; training_task_idx := TaskIdxNone;
     training_split_strategy := None; training_split_seed := None;
     replay := false; replay_proportion := Some (S754_zero false);
     replay_memory_bank_size := None |}.

Section Orchestrator.
Variable image : Type.

(** File system: [pathlib]'s [/], the directory two levels above this
    module, and the dataset classes reading from disk. *)
Variable joinpath : string -> string -> string.
Variable sandbox_dir : string.
Variable construct : dataset_ctor -> Py.result (Dataset image).

(** numpy's generators and sklearn's stratified split. *)
Variable RandomState : Type.
Variable seeded : Z -> RandomState.
Variable stratified_shuffle_split :
  list nat -> Py.float -> list Z -> RandomState ->
  Py.result (list nat * list nat).

(** [kaizen.utils.pretrain_dataloader.split_dataset] and
    [split_dataset_subset], called with the keyword arguments [tasks],
    [task_idx] / [replay_task_idxs], [num_tasks], [split_strategy],
    [split_seed] (and [proportion], [num_samples]); as any Python code
    they can also reach the process-global generator. *)
Variable aux : Type.
Variable split_dataset :
  Dataset image -> option (list (list Z)) -> task_idx_t -> option Z ->
  option string -> option Z -> RandomState ->
  Py.result (Dataset image * aux).
Variable split_dataset_subset :
  Dataset image -> option (list (list Z)) -> list Z -> option Z ->
  option string -> option Z -> option Py.float -> option Z ->
  RandomState -> Py.result (option (Dataset image)).

Definition dataset_names : list string :=
  [ "cifar10"; "cifar100"; "stl10"; "imagenet"; "imagenet100";
    "domainnet"; "custom" ].

Definition prepare_datasets (dataset : string) (T_train T_val : transform)
    (data_dir train_dir val_dir train_domain : option string)
  : Py.result (Dataset image * Dataset image) :=
  let data_dir :=
    match data_dir with
    | None => joinpath sandbox_dir "datasets"
    | Some d => d
    end in
  let train_dir :=
    match train_dir with
    | None => String.append dataset "/train"
    | Some d => d
    end in
  let val_dir :=
    match val_dir with
    | None => String.append dataset "/val"
    | Some d => d
    end in
  if negb (str_in dataset dataset_names) then Py.Raise Py.AssertionError
  else if str_in dataset ["cifar10"; "cifar100"] then
    let DatasetClass :=
      if String.eqb dataset "cifar10" then "CIFAR10" else "CIFAR100" in
    train_dataset <- construct
      (TorchvisionCIFAR DatasetClass (joinpath data_dir train_dir)
         true true T_train) ;;
    val_dataset <- construct
      (TorchvisionCIFAR DatasetClass (joinpath data_dir val_dir)
         false true T_val) ;;
    Py.Ok (train_dataset, val_dataset)
  else if String.eqb dataset "stl10" then
    train_dataset <- construct
      (STL10 (joinpath data_dir train_dir) "train" true T_train) ;;
    val_dataset <- construct
      (STL10 (joinpath data_dir val_dir) "test" true T_val) ;;
    Py.Ok (train_dataset, val_dataset)
  else if str_in dataset ["imagenet"; "imagenet100"; "custom"] then
    let train_dir := joinpath data_dir train_dir in
    let val_dir := joinpath data_dir val_dir in
    train_dataset <- construct (ImageFolder train_dir T_train) ;;
    val_dataset <- construct (ImageFolder val_dir T_val) ;;
    Py.Ok (train_dataset, val_dataset)
  else if String.eqb dataset "domainnet" then
    train_dataset <- construct
      (DomainNetDataset data_dir data_dir train_domain "train" T_train
         false) ;;
    val_dataset <- construct
      (DomainNetDataset data_dir data_dir None "test" T_val true) ;;
    Py.Ok (train_dataset, val_dataset)
  else Py.Raise (Py.UnboundLocalError "train_dataset").

Definition prepare_dataloaders (train_dataset val_dataset : Dataset image)
    (batch_size num_workers : Z)
  : Py.result (DataLoader image * DataLoader image) :=
  train_loader <-
    new_DataLoader train_dataset batch_size true num_workers true true ;;
  val_loader <-
    new_DataLoader val_dataset batch_size false num_workers true false ;;
  Py.Ok (train_loader, val_loader).

(** Reading the local [split_train_dataset], which no branch of the first
    [if] chain binds when [training_data_source] is none of the three
    recognised strings. *)
Definition read_local (v : option (Dataset image))
  : Py.result (Dataset image) :=
  match v with
  | Some d => Py.Ok d
  | None => Py.Raise (Py.UnboundLocalError "split_train_dataset")
  end.

(** [range(training_task_idx + k)] for [k] in [{0, 1}]: a [TypeError]
    unless the index is an int. *)
Definition range_task_idx (idx : task_idx_t) (k : Z) : Py.result (list Z) :=
  match idx with
  | TaskIdxInt i => Py.Ok (Py.range (i + k))
  | TaskIdxNone => Py.Raise (Py.TypeError "NoneType")
  | TaskIdxList _ => Py.Raise (Py.TypeError "list")
  end.

(** Lines 312-332: the task split selected by [training_data_source]. *)
Definition select_training_data (a : args) (train_dataset : Dataset image)
    (global : RandomState) : Py.result (option (Dataset image)) :=
  if String.eqb (training_data_source a) "all_tasks" then
    Py.Ok (Some train_dataset)
  else if String.eqb (training_data_source a) "current_task" then
    '(split_train_dataset, _) <-
      split_dataset train_dataset (training_tasks a) (training_task_idx a)
        (training_num_tasks a) (training_split_strategy a)
        (training_split_seed a) global ;;
    Py.Ok (Some split_train_dataset)
  else if String.eqb (training_data_source a) "seen_tasks" then
    task_idxs <- range_task_idx (training_task_idx a) 1 ;;
    '(split_train_dataset, _) <-
      split_dataset train_dataset (training_tasks a) (TaskIdxList task_idxs)
        (training_num_tasks a) (training_split_strategy a)
        (training_split_seed a) global ;;
    Py.Ok (Some split_train_dataset)
  else Py.Ok None.

(** Lines 337-346: the call of the replay sampler. *)
Definition replay_dataset_of (a : args) (train_dataset : Dataset image)
    (global : RandomState) : Py.result (option (Dataset image)) :=
  replay_task_idxs <- range_task_idx (training_task_idx a) 0 ;;
  split_dataset_subset train_dataset (training_tasks a) replay_task_idxs
    (training_num_tasks a) (training_split_strategy a)
    (training_split_seed a) (replay_proportion a)
    (replay_memory_bank_size a) global.

Definition replay_not_supported : string :=
  "replay is not supported when training_data_source is set to 'all_tasks'".

(** Lines 334-348: the guard and the replay concatenation. *)
Definition replay_stage (a : args) (train_dataset : Dataset image)
    (split_train_dataset : option (Dataset image)) (global : RandomState)
  : Py.result (option (Dataset image)) :=
  if String.eqb (training_data_source a) "all_tasks" && replay a then
    Py.Raise (Py.Exception replay_not_supported)
  else if replay a then
    replay_dataset <- replay_dataset_of a train_dataset global ;;
    match replay_dataset with
    | Some replay_dataset =>
        primary <- read_local split_train_dataset ;;
        Py.Ok (Some (ConcatDataset [primary; replay_dataset]))
    | None => Py.Ok split_train_dataset
    end
  else Py.Ok split_train_dataset.

(** Lines 349-357: the [print] of the subset's length (which reads the
    local), then the stratified subsampling. *)
Definition semi_supervised_stage (a : args)
    (split_train_dataset : option (Dataset image)) (global : RandomState)
  : Py.result (Dataset image) :=
  split_train_dataset <- read_local split_train_dataset ;;
  match semi_supervised a with
  | Some train_size =>
      let arrays := seq 0 (len split_train_dataset) in
      stratify <- get_targets split_train_dataset ;;
      '(idxs, _) <-
        Sklearn.train_test_split RandomState seeded
          stratified_shuffle_split arrays train_size stratify
          (training_split_seed a) global ;;
      Py.Ok (Subset split_train_dataset idxs None)
  | None => Py.Ok split_train_dataset
  end.

(** [prepare_data].  [global] is the state of the process-global numpy
    generator when the call is made. *)
Definition prepare_data (a : args) (global : RandomState)
  : Py.result (DataLoader image * DataLoader image) :=
  '(T_train, T_val) <- prepare_transforms (dataset a) ;;
  '(train_dataset, val_dataset) <-
    prepare_datasets (dataset a) T_train T_val (data_dir a) (train_dir a)
      (val_dir a) (train_domain a) ;;
  split_train_dataset <- select_training_data a train_dataset global ;;
  split_train_dataset <-
    replay_stage a train_dataset split_train_dataset global ;;
  split_train_dataset <-
    semi_supervised_stage a split_train_dataset global ;;
  prepare_dataloaders split_train_dataset val_dataset
    (batch_size a) (num_workers a).

End Orchestrator.

End ClassificationDataloader.

(* ===================================================================== *)
(** * The collaborators whose code is not part of the two files            *)
(* ===================================================================== *)

(** [kaizen.utils.pretrain_dataloader] (the Task Partitioner [split_dataset]
    and the Replay Sampler [split_dataset_subset]) and [kaizen.losses.byol]
    are imported by the two files but are not among them.  This module gives
    them the behaviour the specification states for them. *)
Module SpecModel.
Import Torch ClassificationDataloader.

Fixpoint map_result {A B : Type} (f : A -> Py.result B) (l : list A)
  : Py.result (list B) :=
  match l with
  | [] => Py.Ok []
  | x :: rest =>
      y <- f x ;;
      ys <- map_result f rest ;;
      Py.Ok (y :: ys)
  end.

Section Partitioner.
Variable image : Type.
Variable RandomState : Type.

(** Modelled from the spec: the grouping of class ids into tasks when no
    task labeling is supplied, which kaizen.utils.pretrain_dataloader
    derives from the dataset labels, [num_tasks], the split strategy and
    the seed (spec 4.1).  The spec names strategies only by example, so
    the grouping stays a parameter; it receives nothing but the declared
    inputs. *)
Variable derive_tasks :
  option string -> option Z -> Z -> list Z -> list (list Z).

(** Modelled from the spec: the seeded choice behind replay sampling in
    kaizen.utils.pretrain_dataloader (spec 4.2): [choose seed k n] gives
    positions into a pool of [n] candidates, of which [k] are wanted. *)
Variable choose : option Z -> nat -> nat -> list nat.

Definition inconsistent_tasks : string :=
  "tasks and num_tasks are inconsistent".
Definition task_idx_out_of_range : string := "task_idx out of range".
Definition replay_budget_unset : string :=
  "replay needs replay_proportion or replay_memory_bank_size".

(** Modelled from the spec: the task labeling used by split_dataset of
    kaizen.utils.pretrain_dataloader: the supplied [tasks], or else the
    derived grouping; a configuration error when it does not agree with
    [num_tasks] (spec 4.1, Error). *)
Definition task_groups (tasks : option (list (list Z)))
    (num_tasks : option Z) (strategy : option string) (seed : option Z)
    (targets : list Z) : Py.result (list (list Z)) :=
  match tasks, num_tasks with
  | Some ts, None => Py.Ok ts
  | Some ts, Some n =>
      if Z.of_nat (List.length ts) =? n then Py.Ok ts
      else Py.Raise (Py.Exception inconsistent_tasks)
  | None, Some n =>
      let ts := derive_tasks strategy seed n targets in
      if Z.of_nat (List.length ts) =? n then Py.Ok ts
      else Py.Raise (Py.Exception inconsistent_tasks)
  | None, None => Py.Raise (Py.Exception inconsistent_tasks)
  end.

(** Modelled from the spec: the Task Assignment of
    kaizen.utils.pretrain_dataloader, a pure function from a sample's
    label to its task id (spec 3): the first group holding the label. *)
Fixpoint task_of (groups : list (list Z)) (label : Z) : option nat :=
  match groups with
  | [] => None
  | g :: rest =>
      if existsb (Z.eqb label) g then Some 0%nat
      else option_map S (task_of rest label)
  end.

Definition task_of_index (groups : list (list Z)) (targets : list Z)
    (i : nat) : option nat :=
  match nth_error targets i with
  | Some label => task_of groups label
  | None => None
  end.

Definition belongs (req : list Z) (groups : list (list Z))
    (targets : list Z) (i : nat) : bool :=
  match task_of_index groups targets i with
  | Some k => existsb (Z.eqb (Z.of_nat k)) req
  | None => false
  end.

Definition task_indices (groups : list (list Z)) (targets : list Z)
    (req : list Z) : list nat :=
  filter (belongs req groups targets) (seq 0 (List.length targets)).

Definition requested_tasks (idx : task_idx_t) : Py.result (list Z) :=
  match idx with
  | TaskIdxInt i => Py.Ok [i]
  | TaskIdxList l => Py.Ok l
  | TaskIdxNone => Py.Raise (Py.Exception task_idx_out_of_range)
  end.

Definition resolve (d : Dataset image) (tasks : option (list (list Z)))
    (num_tasks : option Z) (strategy : option string) (seed : option Z)
  : Py.result (list Z * list (list Z)) :=
  targets <- get_targets d ;;
  groups <- task_groups tasks num_tasks strategy seed targets ;;
  Py.Ok (targets, groups).

(** Modelled from the spec: the Sample Subset computed by split_dataset of
    kaizen.utils.pretrain_dataloader: the indices whose task is one of
    the requested ones; a configuration error when a requested index
    exceeds [num_tasks - 1] (spec 4.1). *)
Definition task_subset (d : Dataset image)
    (tasks : option (list (list Z))) (idx : task_idx_t)
    (num_tasks : option Z) (strategy : option string) (seed : option Z)
  : Py.result (list nat) :=
  '(targets, groups) <- resolve d tasks num_tasks strategy seed ;;
  req <- requested_tasks idx ;;
  if existsb (fun i => Z.of_nat (List.length groups) - 1 <? i) req
  then Py.Raise (Py.Exception task_idx_out_of_range)
  else Py.Ok (task_indices groups targets req).

(** The dataset restricted to [idxs], exposing the labels of the kept
    samples as [targets] (spec 6, Dataset collaborator). *)
Definition restrict (d : Dataset image) (targets : list Z)
    (idxs : list nat) : Dataset image :=
  Subset d idxs (Some (map (fun i => nth i targets 0) idxs)).

(** Modelled from the spec: split_dataset of
    kaizen.utils.pretrain_dataloader, the Task Partitioner (spec 4.1):
    [(subset, complement)]. *)
Definition split_dataset (d : Dataset image)
    (tasks : option (list (list Z))) (idx : task_idx_t)
    (num_tasks : option Z) (strategy : option string) (seed : option Z)
    (global : RandomState) : Py.result (Dataset image * Dataset image) :=
  '(targets, _) <- resolve d tasks num_tasks strategy seed ;;
  idxs <- task_subset d tasks idx num_tasks strategy seed ;;
  let complement :=
    filter (fun i => negb (existsb (Nat.eqb i) idxs))
           (seq 0 (List.length targets)) in
  Py.Ok (restrict d targets idxs, restrict d targets complement).

(** [floor(p * n)] for a fraction [p]; [0] unless [p] is positive and
    finite. *)
Definition fraction_of (p : Py.float) (n : nat) : nat :=
  match p with
  | S754_finite false m e => Z.to_nat (Z.shiftl (Zpos m * Z.of_nat n) e)
  | _ => 0%nat
  end.

(** At most [k] members of [pool], at the chosen positions. *)
Definition draw (seed : option Z) (k : nat) (pool : list nat) : list nat :=
  firstn k
    (flat_map (fun p => match nth_error pool p with
                        | Some i => [i]
                        | None => []
                        end)
              (choose seed k (List.length pool))).

(** Neither budget is set: no [num_samples], and a [proportion] that is
    [None] or zero (the default [replay_proportion=0.] of the
    orchestrator reaches the sampler as [0.0]). *)
Definition budget_unset (proportion : option Py.float)
    (num_samples : option Z) : bool :=
  match num_samples, proportion with
  | Some _, _ => false
  | None, None => true
  | None, Some p => Py.float_eq p (Py.float_of_int 0)
  end.

(** The indices drawn from the subsets of the replayed tasks: at most
    [num_samples] of their union when given (it takes precedence), and
    else [proportion] of each task's subset. *)
Definition replay_indices (seed : option Z) (proportion : option Py.float)
    (num_samples : option Z) (subsets : list (list nat)) : list nat :=
  match num_samples, proportion with
  | Some n, _ => draw seed (Z.to_nat n) (List.concat subsets)
  | None, Some p =>
      List.concat (map (fun s =>
                     draw seed (fraction_of p (List.length s)) s)
                  subsets)
  | None, None => []
  end.

(** Modelled from the spec: split_dataset_subset of
    kaizen.utils.pretrain_dataloader, the Replay Sampler (spec 4.2, 7):
    [None] when there is no task to replay; a configuration error when
    neither budget is set; otherwise the subsets of the replayed tasks
    through the Task Partitioner and a seeded draw from them, capped by
    [num_samples] when given and else [proportion] of each task's
    subset. *)
Definition split_dataset_subset (d : Dataset image)
    (tasks : option (list (list Z))) (replay_task_idxs : list Z)
    (num_tasks : option Z) (strategy : option string) (seed : option Z)
    (proportion : option Py.float) (num_samples : option Z)
    (global : RandomState) : Py.result (option (Dataset image)) :=
  match replay_task_idxs with
  | [] => Py.Ok None
  | _ :: _ =>
      if budget_unset proportion num_samples then
        Py.Raise (Py.Exception replay_budget_unset)
      else
        '(targets, _) <- resolve d tasks num_tasks strategy seed ;;
        subsets <-
          map_result
            (fun k => task_subset d tasks (TaskIdxInt k) num_tasks
                        strategy seed)
            replay_task_idxs ;;
        let idxs := replay_indices seed proportion num_samples subsets in
        Py.Ok (Some (restrict d targets idxs))
  end.
End Partitioner.

Section Byol.
Variables prec emax : Z.

Definition dot (p z : list Tensor.scalar) : Tensor.scalar :=
  fold_left (Tensor.add prec emax)
    (map (fun pz => Tensor.mul prec emax (fst pz) (snd pz)) (combine p z))
    (S754_zero false).

Definition norm (p : list Tensor.scalar) : Tensor.scalar :=
  Tensor.sqrt prec emax (dot p p).

Definition cosine_similarity (p z : list Tensor.scalar) : Tensor.scalar :=
  Tensor.div prec emax (dot p z)
    (Tensor.mul prec emax (norm p) (norm z)).

(** Modelled from the spec: byol_loss_func of kaizen.losses.byol, a
    negative-cosine-similarity regression loss between a prediction and
    the teacher embedding (spec 4.5), here for one embedding vector:
    [2 - 2 * cos(p, z)]. *)
Definition byol_loss_func (p z : list Tensor.scalar) : Tensor.scalar :=
  Tensor.sub prec emax (Tensor.of_int prec emax 2)
    (Tensor.mul prec emax (Tensor.of_int prec emax 2)
       (cosine_similarity p z)).
End Byol.

End SpecModel.

(* ===================================================================== *)
(** * A small concrete world                                               *)
(* ===================================================================== *)

(** Concrete stand-ins for what lies outside the code (the file system, the
    numpy generators, sklearn's shuffling, the learned predictor), small
    enough to run the definitions above on explicit inputs. *)
Module Demo.
Import Torch ClassificationDataloader.

Definition image : Type := nat.

Definition joinpath (a b : string) : string :=
  String.append a (String.append "/" b).
Definition sandbox_dir : string := "/kaizen".

(** Six training images of classes 0, 0, 1, 1, 2, 2 and three validation
    images. *)
Definition train_items : list (image * Z) :=
  [ (0%nat, 0); (1%nat, 0); (2%nat, 1); (3%nat, 1); (4%nat, 2); (5%nat, 2) ].
Definition val_items : list (image * Z) :=
  [ (10%nat, 0); (11%nat, 1); (12%nat, 2) ].
Definition train_dataset : Dataset image := VisionDataset train_items.
Definition val_dataset : Dataset image := VisionDataset val_items.

Definition transform_of (c : dataset_ctor) : transform :=
  match c with
  | TorchvisionCIFAR _ _ _ _ tf => tf
  | STL10 _ _ _ tf => tf
  | ImageFolder _ tf => tf
  | DomainNetDataset _ _ _ _ tf _ => tf
  end.

Definition construct (c : dataset_ctor) : Py.result (Dataset image) :=
  match transform_of c with
  | TrainTransform _ => Py.Ok train_dataset
  | ValTransform _ => Py.Ok val_dataset
  end.

(** A generator is its state; seeding sets it. *)
Definition RandomState : Type := nat.
Definition seeded (seed : Z) : RandomState := Z.to_nat seed.

Definition rotate {A : Type} (k : nat) (l : list A) : list A :=
  skipn (k mod (List.length l)) l ++ firstn (k mod (List.length l)) l.

(** Splits after rotating by the generator state. *)
Definition stratified_shuffle_split (arrays : list nat)
    (train_size : Py.float) (stratify : list Z) (rs : RandomState)
  : Py.result (list nat * list nat) :=
  let k := SpecModel.fraction_of train_size (List.length arrays) in
  let shuffled := rotate rs arrays in
  Py.Ok (firstn k shuffled, skipn k shuffled).

(** One class per task, in label order. *)
Definition derive_tasks (strategy : option string) (seed : option Z)
    (num_tasks : Z) (targets : list Z) : list (list Z) :=
  map (fun c => [c]) (Py.range num_tasks).

Definition choose (seed : option Z) (k n : nat) : list nat :=
  let s := match seed with Some z => Z.to_nat z | None => 0%nat end in
  map (fun j => ((j + s) mod n)%nat) (seq 0 k).

Definition split_dataset :=
  SpecModel.split_dataset image RandomState derive_tasks.
Definition split_dataset_subset :=
  SpecModel.split_dataset_subset image RandomState derive_tasks choose.

Definition prepare_data (a : args) (global : RandomState)
  : Py.result (DataLoader image * DataLoader image) :=
  ClassificationDataloader.prepare_data image joinpath sandbox_dir construct
    RandomState seeded stratified_shuffle_split (Dataset image)
    split_dataset split_dataset_subset a global.

Definition half : Py.float :=
  S754_finite false 4503599627370496 (-53).
Definition one : Py.float := Py.float_of_int 1.

(** Three tasks, one class each, given explicitly. *)
Definition base_args : args :=
  {| dataset := "cifar10"; data_dir := None; train_dir := None;
     val_dir := None; batch_size := 64; num_workers := 4;
     train_domain := None; semi_supervised := None;
     training_data_source := "current_task";
     training_num_tasks := Some 3;
     training_tasks := Some [[0]; [1]; [2]];
     training_task_idx := TaskIdxInt 1;
     training_split_strategy := Some "class";
     training_split_seed := Some 5;
     replay := true; replay_proportion := Some one;
     replay_memory_bank_size := None |}.

Definition with_task_idx (a : args) (i : task_idx_t) : args :=
  {| dataset := dataset a; data_dir := data_dir a; train_dir := train_dir a;
     val_dir := val_dir a; batch_size := batch_size a;
     num_workers := num_workers a; train_domain := train_domain a;
     semi_supervised := semi_supervised a;
     training_data_source := training_data_source a;
     training_num_tasks := training_num_tasks a;
     training_tasks := training_tasks a;
     training_task_idx := i;
     training_split_strategy := training_split_strategy a;
     training_split_seed := training_split_seed a;
     replay := replay a; replay_proportion := replay_proportion a;
     replay_memory_bank_size := replay_memory_bank_size a |}.

Definition with_source (a : args) (src : string) : args :=
  {| dataset := dataset a; data_dir := data_dir a; train_dir := train_dir a;
     val_dir := val_dir a; batch_size := batch_size a;
     num_workers := num_workers a; train_domain := train_domain a;
     semi_supervised := semi_supervised a;
     training_data_source := src;
     training_num_tasks := training_num_tasks a;
     training_tasks := training_tasks a;
     training_task_idx := training_task_idx a;
     training_split_strategy := training_split_strategy a;
     training_split_seed := training_split_seed a;
     replay := replay a; replay_proportion := replay_proportion a;
     replay_memory_bank_size := replay_memory_bank_size a |}.

Definition with_semi_supervised (a : args) (f : option Py.float) : args :=
  {| dataset := dataset a; data_dir := data_dir a; train_dir := train_dir a;
     val_dir := val_dir a; batch_size := batch_size a;
     num_workers := num_workers a; train_domain := train_domain a;
     semi_supervised := f;
     training_data_source := training_data_source a;
     training_num_tasks := training_num_tasks a;
     training_tasks := training_tasks a;
     training_task_idx := training_task_idx a;
     training_split_strategy := training_split_strategy a;
     training_split_seed := training_split_seed a;
     replay := replay a; replay_proportion := replay_proportion a;
     replay_memory_bank_size := replay_memory_bank_size a |}.


(** The distillation wrapper on float32 losses and embeddings that are one
    vector each; the wrapped step hands back what the batch carries. *)
Definition prec : Z := 24.
Definition emax : Z := 128.
Definition embedding : Type := list Tensor.scalar.
Definition distill_predictor (z : embedding) : embedding := z.
Definition super_training_step (b : Predictive.step_out embedding)
    (batch_idx : Z) : Py.result (Predictive.step_out embedding) :=
  Py.Ok b.

Definition training_step :=
  Predictive.training_step prec emax embedding
    (Predictive.step_out embedding) distill_predictor
    (SpecModel.byol_loss_func prec emax) super_training_step.

Definition learnable_params :=
  Predictive.learnable_params unit tt (Py.Ok []).

Definition t_one : Tensor.scalar := Tensor.of_int prec emax 1.

(** [distill_lamb = 0.0], [lr = 1.0], [weight_decay = 1.0] *)
Definition zero_lamb_self : Predictive.self_t :=
  Predictive.mk_self (S754_zero false) one one.
(** [distill_lamb = 0.5] and [distill_lamb = 2.0] *)
Definition half_lamb_self : Predictive.self_t :=
  Predictive.mk_self half one one.
Definition two_lamb_self : Predictive.self_t :=
  Predictive.mk_self (Py.float_of_int 2) one one.

(** A step whose primary loss is [1.0] and whose embeddings are all the
    vector [[1.0]]. *)
Definition finite_batch : Predictive.step_out embedding :=
  Predictive.mk_step_out t_one ([t_one], [t_one]) ([t_one], [t_one]).
(** The same step with a NaN in the second teacher embedding. *)
Definition nan_batch : Predictive.step_out embedding :=
  Predictive.mk_step_out t_one ([t_one], [t_one]) ([t_one], [S754_nan]).

(** Task 0 with replay; task 2 with replay; the same with a semi-supervised
    fraction, without a replay budget, on all tasks, on seen tasks; and the
    defaults of the signature (no seed) with a semi-supervised fraction. *)
Definition first_task_args : args := with_task_idx base_args (TaskIdxInt 0).
Definition last_task_args : args := with_task_idx base_args (TaskIdxInt 2).
Definition semi_supervised_args : args :=
  with_semi_supervised base_args (Some half).
Definition first_task_semi_args : args :=
  with_semi_supervised first_task_args (Some half).
Definition all_tasks_args : args := with_source first_task_args "all_tasks".
Definition seen_tasks_args : args := with_source base_args "seen_tasks".

Definition replay_dataset_of :=
  ClassificationDataloader.replay_dataset_of image RandomState
    split_dataset_subset.

(** The task-0 subset of the training data and its complement; the task-2
    subset and what is replayed with it. *)
Definition task0_subset : Dataset image :=
  Subset train_dataset [0%nat; 1%nat] (Some [0; 0]).
Definition task0_rest : Dataset image :=
  Subset train_dataset [2%nat; 3%nat; 4%nat; 5%nat] (Some [1; 1; 2; 2]).
Definition task1_subset : Dataset image :=
  Subset train_dataset [2%nat; 3%nat] (Some [1; 1]).
Definition task1_replay : Dataset image :=
  Subset train_dataset [1%nat; 0%nat] (Some [0; 0]).
Definition task2_subset : Dataset image :=
  Subset train_dataset [4%nat; 5%nat] (Some [2; 2]).
Definition task2_replay : Dataset image :=
  Subset train_dataset [1%nat; 0%nat; 3%nat; 2%nat] (Some [0; 0; 1; 1]).
End Demo.


(** More concrete inputs in the world of [Demo]. *)
Module DemoExtra.
Import Torch ClassificationDataloader.

Definition t_two : Tensor.scalar := Tensor.of_int Demo.prec Demo.emax 2.

(** A step whose two views differ, and the same step with the views
    exchanged. *)
Definition views_batch : Predictive.step_out Demo.embedding :=
  Predictive.mk_step_out Demo.t_one
    ([Demo.t_one], [t_two]) ([t_two], [Demo.t_one; t_two]).
Definition swapped_batch : Predictive.step_out Demo.embedding :=
  Predictive.mk_step_out Demo.t_one
    ([t_two], [Demo.t_one]) ([Demo.t_one; t_two], [t_two]).

(** [distill_lamb = -0.5] and [distill_lamb = NaN], with [lr = 1.0]. *)
Definition negative_lamb_self : Predictive.self_t :=
  Predictive.mk_self (SFopp Demo.half) Demo.one Demo.one.
Definition nan_lamb_self : Predictive.self_t :=
  Predictive.mk_self S754_nan Demo.one Demo.one.

(** A parent with two parameter groups. *)
Definition parent_groups : list (Predictive.param_group unit) :=
  [ Predictive.mk_param_group "backbone" tt None None;
    Predictive.mk_param_group "projector" tt (Some Demo.one) None ].
Definition learnable_params :=
  Predictive.learnable_params unit tt (Py.Ok parent_groups).

Definition prepare_datasets :=
  ClassificationDataloader.prepare_datasets Demo.image Demo.joinpath
    Demo.sandbox_dir Demo.construct.

(** A dataset name that is not known; a data source that is not known;
    ["seen_tasks"] with no index and with index -1; ["current_task"] with
    a list index, without and with replay. *)
Definition unknown_dataset_args : args := default_args "mnist".
Definition unknown_source_args : args :=
  Demo.with_source (default_args "cifar10") "future_tasks".
Definition seen_no_index_args : args :=
  Demo.with_task_idx Demo.seen_tasks_args TaskIdxNone.
Definition seen_negative_args : args :=
  Demo.with_task_idx Demo.seen_tasks_args (TaskIdxInt (-1)).
Definition list_index_args : args :=
  Demo.with_task_idx Demo.base_args (TaskIdxList [0; 1]).

Definition tasks01_subset : Dataset Demo.image :=
  Subset Demo.train_dataset [0%nat; 1%nat; 2%nat; 3%nat] (Some [0; 0; 1; 1]).
End DemoExtra.
(* ===================================================================== *)
(** * Properties of the error monad and of float comparison                *)
(* ===================================================================== *)

Lemma bind_Ok {A B : Type} (r : Py.result A) (k : A -> Py.result B) (b : B) :
  Py.bind r k = Py.Ok b -> exists a, r = Py.Ok a /\ k a = Py.Ok b.
Proof.
  destruct r as [a | e]; simpl; intros H.
  - exists a; split; [reflexivity | exact H].
  - discriminate H.
Qed.

Lemma bind_raises {A B : Type} (r : Py.result A) (k : A -> Py.result B) :
  (forall a, Py.raises (k a) = true) -> Py.raises (Py.bind r k) = true.
Proof.
  intros Hk. destruct r as [a | e]; simpl; [apply Hk | reflexivity].
Qed.

Lemma raises_spec {A : Type} (r : Py.result A) :
  Py.raises r = true <-> exists e, r = Py.Raise e.
Proof.
  destruct r as [a | e]; simpl; split; intros H.
  - discriminate H.
  - destruct H as [e H]; discriminate H.
  - exists e; reflexivity.
  - reflexivity.
Qed.

Lemma range_spec (n k : Z) : In k (Py.range n) <-> 0 <= k < n.
Proof.
  unfold Py.range. rewrite in_map_iff. split.
  - intros [j [Hj Hin]]. apply in_seq in Hin. lia.
  - intros Hk. exists (Z.to_nat k). split; [lia | apply in_seq; lia].
Qed.

Lemma range_nonpositive (n : Z) : n <= 0 -> Py.range n = [].
Proof.
  intros Hn. unfold Py.range.
  replace (Z.to_nat n) with 0%nat by lia. reflexivity.
Qed.

(** IEEE comparison is antisymmetric: swapping the operands mirrors the
    outcome, and stays undefined exactly for NaN. *)
Lemma SFcompare_swap (x y : spec_float) :
  SFcompare y x = option_map CompOpp (SFcompare x y).
Proof.
  destruct x as [sx | sx | | sx mx ex], y as [sy | sy | | sy my ey];
    simpl; try reflexivity;
    try (destruct sx; reflexivity); try (destruct sy; reflexivity);
    try (destruct sx, sy; reflexivity).
  destruct sx, sy; simpl; try reflexivity;
    rewrite (Z.compare_antisym ey ex);
    destruct (ey ?= ex) eqn:He; simpl; try reflexivity;
    rewrite (Pos.compare_cont_antisym mx my Eq); simpl;
    destruct (Pos.compare_cont Eq mx my); reflexivity.
Qed.

(** For a number that is not NaN, [x >= y] is the negation of [x < y]. *)
Lemma float_ge_not_lt (x y : Py.float) :
  SFcompare x y <> None ->
  Py.float_ge x y = negb (Py.float_lt x y).
Proof.
  unfold Py.float_ge, Py.float_lt, SFleb, SFltb. intros Hc.
  rewrite (SFcompare_swap x y).
  destruct (SFcompare x y) as [[ | | ] | ]; simpl; try reflexivity.
  congruence.
Qed.

Lemma float_zero_value : Py.float_of_int 0 = S754_zero false.
Proof. vm_compute. reflexivity. Qed.

Lemma float_one_value :
  Py.float_of_int 1 = S754_finite false 4503599627370496 (-52).
Proof. vm_compute. reflexivity. Qed.

Lemma float_two_value :
  Py.float_of_int 2 = S754_finite false 4503599627370496 (-51).
Proof. vm_compute. reflexivity. Qed.

Lemma float_gt_zero_cases (x : Py.float) :
  Py.float_gt x (Py.float_of_int 0) = true ->
  x = S754_infinity false \/ exists m e, x = S754_finite false m e.
Proof.
  unfold Py.float_gt, SFltb. rewrite float_zero_value.
  destruct x as [s | s | | s m e]; simpl; try discriminate.
  - destruct s; [discriminate | left; reflexivity].
  - destruct s; [discriminate | right; exists m, e; reflexivity].
Qed.

Lemma float_eq_zero_cases (x : Py.float) :
  Py.float_eq x (Py.float_of_int 0) = true -> exists s, x = S754_zero s.
Proof.
  unfold Py.float_eq, SFeqb. rewrite float_zero_value.
  destruct x as [s | s | | s m e]; simpl; try discriminate.
  - exists s; reflexivity.
  - destruct s; discriminate.
  - destruct s; discriminate.
Qed.

Lemma SFcompare_defined (x y : spec_float) :
  x <> S754_nan -> y <> S754_nan -> SFcompare x y <> None.
Proof.
  intros Hx Hy.
  destruct x as [sx | sx | | sx mx ex], y as [sy | sy | | sy my ey];
    try congruence; unfold SFcompare; discriminate.
Qed.

Lemma compare_one_defined (x : Py.float) :
  Py.float_gt x (Py.float_of_int 0) = true ->
  SFcompare x (Py.float_of_int 1) <> None.
Proof.
  intros H. rewrite float_one_value. apply SFcompare_defined.
  - destruct (float_gt_zero_cases x H) as [-> | [m [e ->]]]; discriminate.
  - discriminate.
Qed.

(** Adding a zero times a finite number gives back the first operand, up to
    the sign of a zero. *)
Lemma add_zero_times_finite (prec emax : Z) (x d : spec_float) (s : bool) :
  Tensor.isfinite d = true ->
  Tensor.same
    (Tensor.add prec emax x (Tensor.mul prec emax (S754_zero s) d)) x.
Proof.
  intros Hd. unfold Tensor.add, Tensor.mul, Tensor.same.
  destruct d as [sd | sd | | sd md ed]; try discriminate Hd; simpl;
    destruct x as [sx | sx | | sx mx ex]; simpl; auto;
    destruct sx, (xorb s sd); simpl; auto.
Qed.

(* ===================================================================== *)
(** * The distillation wrapper                                             *)
(* ===================================================================== *)

Section PredictiveProperties.
Import Predictive.
Variables prec emax : Z.
Variables (embedding batch params : Type).
Variable distill_predictor : embedding -> embedding.
Variable distill_predictor_parameters : params.
Variable byol_loss_func : embedding -> embedding -> Tensor.scalar.
Variable super_training_step : batch -> Z -> Py.result (step_out embedding).
Variable super_learnable_params : Py.result (list (param_group params)).

Let training_step :=
  Predictive.training_step prec emax embedding batch distill_predictor
    byol_loss_func super_training_step.
Let learnable_params :=
  Predictive.learnable_params params distill_predictor_parameters
    super_learnable_params.
Let distill_loss_of :=
  Predictive.distill_loss_of prec emax embedding distill_predictor
    byol_loss_func.

Lemma distill_loss_of_eq (loss : Tensor.scalar)
    (z1 z2 frozen_z1 frozen_z2 : embedding) :
  distill_loss_of (mk_step_out loss (z1, z2) (frozen_z1, frozen_z2)) =
  Tensor.div prec emax
    (Tensor.add prec emax
       (byol_loss_func (distill_predictor z1) frozen_z1)
       (byol_loss_func (distill_predictor z2) frozen_z2))
    (Tensor.of_int prec emax 2).
Proof. reflexivity. Qed.

Lemma predictor_lr_ge_one (self : self_t) :
  Py.float_ge (distill_lamb self) (Py.float_of_int 1) = true ->
  distill_predictor_lr self = Py.Ok (lr self).
Proof.
  intros H. unfold distill_predictor_lr. rewrite H. reflexivity.
Qed.

Lemma predictor_lr_lt_one (self : self_t) :
  Py.float_gt (distill_lamb self) (Py.float_of_int 0) = true ->
  Py.float_lt (distill_lamb self) (Py.float_of_int 1) = true ->
  distill_predictor_lr self =
  Py.Ok (SFdiv Py.float_prec Py.float_emax (lr self) (distill_lamb self)).
Proof.
  intros Hpos Hlt. unfold distill_predictor_lr.
  rewrite (float_ge_not_lt _ _ (compare_one_defined _ Hpos)), Hlt. simpl.
  destruct (float_gt_zero_cases _ Hpos) as [-> | [m [e ->]]]; reflexivity.
Qed.

Lemma predictor_lr_value (self : self_t) :
  Py.float_gt (distill_lamb self) (Py.float_of_int 0) = true ->
  distill_predictor_lr self =
  Py.Ok (if Py.float_lt (distill_lamb self) (Py.float_of_int 1)
         then SFdiv Py.float_prec Py.float_emax (lr self)
                (distill_lamb self)
         else lr self).
Proof.
  intros Hpos.
  pose proof (float_ge_not_lt _ _ (compare_one_defined _ Hpos)) as Hge.
  destruct (Py.float_lt (distill_lamb self) (Py.float_of_int 1)) eqn:Hlt.
  - apply predictor_lr_lt_one; assumption.
  - apply predictor_lr_ge_one. rewrite Hge, ?Hlt. reflexivity.
Qed.

(** C7.  For every [distill_lamb > 0] the learning rate of the predictor's
    parameter group is [lr / distill_lamb] when [distill_lamb < 1] and the
    base [lr] when [distill_lamb >= 1], one of the two always being the
    case; the group is appended to the parent's groups with that rate; and
    with [distill_lamb = 2] the rate is the base rate. *)
Theorem predictor_lr_scaling (self : self_t) :
  Py.float_gt (distill_lamb self) (Py.float_of_int 0) = true ->
  let scaled :=
    if Py.float_lt (distill_lamb self) (Py.float_of_int 1)
    then SFdiv Py.float_prec Py.float_emax (lr self) (distill_lamb self)
    else lr self in
  distill_predictor_lr self = Py.Ok scaled
  /\ Py.float_ge (distill_lamb self) (Py.float_of_int 1)
     = negb (Py.float_lt (distill_lamb self) (Py.float_of_int 1))
  /\ learnable_params self =
     (parent <- super_learnable_params ;;
      Py.Ok (parent ++
             [mk_param_group "distill_predictor" distill_predictor_parameters
                (Some scaled) (Some (weight_decay self))]))
  /\ (distill_lamb self = Py.float_of_int 2 ->
      distill_predictor_lr self = Py.Ok (lr self)).
Proof.
  intros Hpos scaled.
  pose proof (float_ge_not_lt _ _ (compare_one_defined _ Hpos)) as Hge.
  assert (Hlr : distill_predictor_lr self = Py.Ok scaled)
    by exact (predictor_lr_value self Hpos).
  repeat split.
  - exact Hlr.
  - exact Hge.
  - unfold learnable_params, Predictive.learnable_params.
    rewrite Hlr. reflexivity.
  - intros H2. apply predictor_lr_ge_one. rewrite H2.
    rewrite float_one_value, float_two_value. reflexivity.
Qed.

(** C9.  With [distill_lamb = 0] (allowed by [distill_lamb >= 0]) the
    learning-rate expression divides by zero: it raises
    [ZeroDivisionError], and so does [learnable_params] whatever the
    parent's groups are.  Among the values [distill_lamb >= 0] the
    expression has a value exactly when [distill_lamb > 0]. *)
Theorem predictor_lr_division_by_zero (self : self_t) :
  (Py.float_eq (distill_lamb self) (Py.float_of_int 0) = true ->
     distill_predictor_lr self = Py.Raise Py.ZeroDivisionError
     /\ learnable_params self = Py.Raise Py.ZeroDivisionError)
  /\ (Py.float_ge (distill_lamb self) (Py.float_of_int 0) = true ->
      ((exists v, distill_predictor_lr self = Py.Ok v) <->
       Py.float_gt (distill_lamb self) (Py.float_of_int 0) = true)).
Proof.
  assert (Hzero : Py.float_eq (distill_lamb self) (Py.float_of_int 0) = true ->
                  distill_predictor_lr self = Py.Raise Py.ZeroDivisionError).
  { intros H0. destruct (float_eq_zero_cases _ H0) as [s Hs].
    unfold distill_predictor_lr. rewrite Hs, float_one_value.
    reflexivity. }
  split.
  - intros H0. split; [exact (Hzero H0) |].
    unfold learnable_params, Predictive.learnable_params.
    rewrite (Hzero H0). reflexivity.
  - intros Hge. split.
    + intros [v Hv].
      destruct (Py.float_gt (distill_lamb self) (Py.float_of_int 0)) eqn:Hgt;
        [reflexivity |].
      exfalso.
      assert (H0 : Py.float_eq (distill_lamb self) (Py.float_of_int 0) = true).
      { revert Hge Hgt. unfold Py.float_ge, Py.float_gt, Py.float_eq,
          SFleb, SFltb, SFeqb.
        rewrite (SFcompare_swap (distill_lamb self) (Py.float_of_int 0)).
        destruct (SFcompare (distill_lamb self) (Py.float_of_int 0))
          as [[ | | ] | ]; simpl; congruence. }
      rewrite (Hzero H0) in Hv. discriminate Hv.
    + intros Hgt. eexists. exact (predictor_lr_value self Hgt).
Qed.

(** C1 (as amended).  When the wrapped step returns [out] with student
    embeddings [(z1, z2)] and teacher embeddings [(frozen_z1, frozen_z2)],
    the step logs and uses
    [distill_loss = (loss_fn(p1, frozen_z1) + loss_fn(p2, frozen_z2)) / 2]
    with [p1 = predictor(z1)], [p2 = predictor(z2)], and returns exactly
    [out.loss + distill_lamb * distill_loss]; for [distill_lamb = 0] and a
    finite [distill_loss] the returned loss is the primary loss. *)
Theorem training_step_loss (self : self_t) (b : batch) (batch_idx : Z)
    (loss : Tensor.scalar) (z1 z2 frozen_z1 frozen_z2 : embedding) :
  super_training_step b batch_idx =
    Py.Ok (mk_step_out loss (z1, z2) (frozen_z1, frozen_z2)) ->
  let p1 := distill_predictor z1 in
  let p2 := distill_predictor z2 in
  let distill_loss :=
    Tensor.div prec emax
      (Tensor.add prec emax (byol_loss_func p1 frozen_z1)
                            (byol_loss_func p2 frozen_z2))
      (Tensor.of_int prec emax 2) in
  let returned :=
    Tensor.add prec emax loss
      (Tensor.mul prec emax (Tensor.of_float prec emax (distill_lamb self))
         distill_loss) in
  training_step self b batch_idx =
    Py.Ok {| logged := [("train_predictive_distill_loss", distill_loss)];
             returned_loss := returned |}
  /\ (Py.float_eq (distill_lamb self) (Py.float_of_int 0) = true ->
      Tensor.isfinite distill_loss = true ->
      Tensor.same returned loss).
Proof.
  intros Hsuper p1 p2 distill_loss returned. split.
  - unfold training_step, Predictive.training_step.
    rewrite Hsuper. reflexivity.
  - intros H0 Hfin. destruct (float_eq_zero_cases _ H0) as [s Hs].
    unfold returned. rewrite Hs. simpl Tensor.of_float.
    apply add_zero_times_finite. exact Hfin.
Qed.

End PredictiveProperties.

(* ===================================================================== *)
(** * The data preparation orchestrator, for any collaborators             *)
(* ===================================================================== *)

Lemma new_DataLoader_Ok {image : Type} (d : Torch.Dataset image)
    (batch_size : Z) (shuffle : bool) (num_workers : Z)
    (pin_memory drop_last : bool) (l : Torch.DataLoader image) :
  Torch.new_DataLoader d batch_size shuffle num_workers pin_memory drop_last
    = Py.Ok l ->
  l = {| Torch.dl_dataset := d; Torch.dl_batch_size := batch_size;
         Torch.dl_shuffle := shuffle; Torch.dl_num_workers := num_workers;
         Torch.dl_pin_memory := pin_memory; Torch.dl_drop_last := drop_last |}
  /\ 0 < batch_size /\ 0 <= num_workers
  /\ (shuffle = true -> Torch.len d <> 0%nat).
Proof.
  unfold Torch.new_DataLoader.
  destruct (num_workers <? 0) eqn:Hn; [discriminate |].
  destruct (shuffle && (Torch.len d =? 0)%nat) eqn:Hs; [discriminate |].
  destruct (batch_size <=? 0) eqn:Hb; [discriminate |].
  intros H. injection H as <-.
  apply Z.ltb_ge in Hn. apply Z.leb_gt in Hb.
  repeat split; try assumption.
  intros ->. simpl in Hs. apply Nat.eqb_neq in Hs. exact Hs.
Qed.

Lemma new_DataLoader_valid {image : Type} (d : Torch.Dataset image)
    (batch_size : Z) (shuffle : bool) (num_workers : Z)
    (pin_memory drop_last : bool) :
  0 < batch_size -> 0 <= num_workers ->
  (shuffle = true -> Torch.len d <> 0%nat) ->
  Torch.new_DataLoader d batch_size shuffle num_workers pin_memory drop_last
  = Py.Ok {| Torch.dl_dataset := d; Torch.dl_batch_size := batch_size;
             Torch.dl_shuffle := shuffle; Torch.dl_num_workers := num_workers;
             Torch.dl_pin_memory := pin_memory;
             Torch.dl_drop_last := drop_last |}.
Proof.
  intros Hb Hn Hs. unfold Torch.new_DataLoader.
  replace (num_workers <? 0) with false by (symmetry; apply Z.ltb_ge; lia).
  replace (batch_size <=? 0) with false by (symmetry; apply Z.leb_gt; lia).
  destruct shuffle; simpl; [| reflexivity].
  replace (Torch.len d =? 0)%nat with false
    by (symmetry; apply Nat.eqb_neq; apply Hs; reflexivity).
  reflexivity.
Qed.

Section OrchestratorProperties.
Import Torch ClassificationDataloader.
Variable image : Type.
Variable joinpath : string -> string -> string.
Variable sandbox_dir : string.
Variable construct : dataset_ctor -> Py.result (Dataset image).
Variable RandomState : Type.
Variable seeded : Z -> RandomState.
Variable stratified_shuffle_split :
  list nat -> Py.float -> list Z -> RandomState ->
  Py.result (list nat * list nat).
Variable aux : Type.
Variable split_dataset :
  Dataset image -> option (list (list Z)) -> task_idx_t -> option Z ->
  option string -> option Z -> RandomState ->
  Py.result (Dataset image * aux).
Variable split_dataset_subset :
  Dataset image -> option (list (list Z)) -> list Z -> option Z ->
  option string -> option Z -> option Py.float -> option Z ->
  RandomState -> Py.result (option (Dataset image)).

Let prepare_datasets :=
  ClassificationDataloader.prepare_datasets image joinpath sandbox_dir
    construct.
Let select_training_data :=
  ClassificationDataloader.select_training_data image RandomState aux
    split_dataset.
Let replay_dataset_of :=
  ClassificationDataloader.replay_dataset_of image RandomState
    split_dataset_subset.
Let replay_stage :=
  ClassificationDataloader.replay_stage image RandomState
    split_dataset_subset.
Let semi_supervised_stage :=
  ClassificationDataloader.semi_supervised_stage image RandomState seeded
    stratified_shuffle_split.
Let prepare_data :=
  ClassificationDataloader.prepare_data image joinpath sandbox_dir construct
    RandomState seeded stratified_shuffle_split aux split_dataset
    split_dataset_subset.

(** [prepare_data] once the datasets are loaded. *)
Lemma prepare_data_loaded (a : args) (g : RandomState)
    (T_train T_val : transform) (train val : Dataset image) :
  prepare_transforms (dataset a) = Py.Ok (T_train, T_val) ->
  prepare_datasets (dataset a) T_train T_val (data_dir a) (train_dir a)
    (val_dir a) (train_domain a) = Py.Ok (train, val) ->
  prepare_data a g =
  (split_train_dataset <- select_training_data a train g ;;
   split_train_dataset <- replay_stage a train split_train_dataset g ;;
   split_train_dataset <- semi_supervised_stage a split_train_dataset g ;;
   prepare_dataloaders image split_train_dataset val
     (batch_size a) (num_workers a)).
Proof.
  intros HT HD. unfold prepare_data, ClassificationDataloader.prepare_data.
  rewrite HT. simpl. fold prepare_datasets. rewrite HD. reflexivity.
Qed.

(** A successful [prepare_data] went through each stage. *)
Lemma prepare_data_Ok (a : args) (g : RandomState)
    (tl vl : DataLoader image) :
  prepare_data a g = Py.Ok (tl, vl) ->
  exists T_train T_val train val s1 s2 s3,
    prepare_transforms (dataset a) = Py.Ok (T_train, T_val)
    /\ prepare_datasets (dataset a) T_train T_val (data_dir a) (train_dir a)
         (val_dir a) (train_domain a) = Py.Ok (train, val)
    /\ select_training_data a train g = Py.Ok s1
    /\ replay_stage a train s1 g = Py.Ok s2
    /\ semi_supervised_stage a s2 g = Py.Ok s3
    /\ prepare_dataloaders image s3 val (batch_size a) (num_workers a)
       = Py.Ok (tl, vl).
Proof.
  unfold prepare_data, ClassificationDataloader.prepare_data. intros H.
  apply bind_Ok in H. destruct H as [[T_train T_val] [HT H]].
  apply bind_Ok in H. destruct H as [[train val] [HD H]].
  apply bind_Ok in H. destruct H as [s1 [H1 H]].
  apply bind_Ok in H. destruct H as [s2 [H2 H]].
  apply bind_Ok in H. destruct H as [s3 [H3 H]].
  exists T_train, T_val, train, val, s1, s2, s3.
  repeat split; assumption.
Qed.

(** The loaders [prepare_dataloaders] returns, when it returns. *)
Lemma prepare_dataloaders_Ok (train val : Dataset image)
    (batch_size num_workers : Z) (tl vl : DataLoader image) :
  prepare_dataloaders image train val batch_size num_workers
    = Py.Ok (tl, vl) ->
  tl = {| dl_dataset := train; dl_batch_size := batch_size;
          dl_shuffle := true; dl_num_workers := num_workers;
          dl_pin_memory := true; dl_drop_last := true |}
  /\ vl = {| dl_dataset := val; dl_batch_size := batch_size;
             dl_shuffle := false; dl_num_workers := num_workers;
             dl_pin_memory := true; dl_drop_last := false |}
  /\ 0 < batch_size /\ 0 <= num_workers /\ len train <> 0%nat.
Proof.
  unfold prepare_dataloaders. intros H.
  apply bind_Ok in H. destruct H as [l1 [H1 H]].
  apply bind_Ok in H. destruct H as [l2 [H2 H]].
  injection H as <- <-.
  apply new_DataLoader_Ok in H1. destruct H1 as [-> [Hb [Hn Hlen]]].
  apply new_DataLoader_Ok in H2. destruct H2 as [-> _].
  repeat split; try assumption. apply Hlen. reflexivity.
Qed.

Lemma prepare_dataloaders_valid (train val : Dataset image)
    (batch_size num_workers : Z) :
  0 < batch_size -> 0 <= num_workers -> len train <> 0%nat ->
  prepare_dataloaders image train val batch_size num_workers
  = Py.Ok ({| dl_dataset := train; dl_batch_size := batch_size;
              dl_shuffle := true; dl_num_workers := num_workers;
              dl_pin_memory := true; dl_drop_last := true |},
           {| dl_dataset := val; dl_batch_size := batch_size;
              dl_shuffle := false; dl_num_workers := num_workers;
              dl_pin_memory := true; dl_drop_last := false |}).
Proof.
  intros Hb Hn Hlen. unfold prepare_dataloaders.
  rewrite new_DataLoader_valid by (try assumption; intros _; exact Hlen).
  rewrite new_DataLoader_valid by (try assumption; discriminate).
  reflexivity.
Qed.

Lemma select_all_tasks (a : args) (train : Dataset image) (g : RandomState) :
  training_data_source a = "all_tasks" ->
  select_training_data a train g = Py.Ok (Some train).
Proof.
  intros Hs. unfold select_training_data,
    ClassificationDataloader.select_training_data.
  rewrite Hs. reflexivity.
Qed.

Lemma select_current_task (a : args) (train : Dataset image)
    (g : RandomState) :
  training_data_source a = "current_task" ->
  select_training_data a train g =
  (' (split_train_dataset, _) <-
     split_dataset train (training_tasks a) (training_task_idx a)
       (training_num_tasks a) (training_split_strategy a)
       (training_split_seed a) g ;;
   Py.Ok (Some split_train_dataset)).
Proof.
  intros Hs. unfold select_training_data,
    ClassificationDataloader.select_training_data.
  rewrite Hs. reflexivity.
Qed.

Lemma select_seen_tasks (a : args) (train : Dataset image)
    (g : RandomState) :
  training_data_source a = "seen_tasks" ->
  select_training_data a train g =
  (task_idxs <- range_task_idx (training_task_idx a) 1 ;;
   ' (split_train_dataset, _) <-
     split_dataset train (training_tasks a) (TaskIdxList task_idxs)
       (training_num_tasks a) (training_split_strategy a)
       (training_split_seed a) g ;;
   Py.Ok (Some split_train_dataset)).
Proof.
  intros Hs. unfold select_training_data,
    ClassificationDataloader.select_training_data.
  rewrite Hs. reflexivity.
Qed.

Lemma replay_stage_replaying (a : args) (train : Dataset image)
    (cur : option (Dataset image)) (g : RandomState) :
  String.eqb (training_data_source a) "all_tasks" = false ->
  replay a = true ->
  replay_stage a train cur g =
  (replay_dataset <- replay_dataset_of a train g ;;
   match replay_dataset with
   | Some replay_dataset =>
       primary <- read_local image cur ;;
       Py.Ok (Some (ConcatDataset [primary; replay_dataset]))
   | None => Py.Ok cur
   end).
Proof.
  intros Hs Hr. unfold replay_stage, ClassificationDataloader.replay_stage.
  rewrite Hs, Hr. reflexivity.
Qed.

(** The replay stage either leaves the training subset as it is or
    appends exactly what the sampler returned. *)
Lemma replay_stage_shape (a : args) (train primary out : Dataset image)
    (g : RandomState) :
  replay_stage a train (Some primary) g = Py.Ok (Some out) ->
  out = primary
  \/ exists r, replay_dataset_of a train g = Py.Ok (Some r)
               /\ out = ConcatDataset [primary; r].
Proof.
  unfold replay_stage, ClassificationDataloader.replay_stage.
  destruct (String.eqb (training_data_source a) "all_tasks" && replay a);
    [discriminate |].
  destruct (replay a).
  - fold replay_dataset_of. intros H. apply bind_Ok in H.
    destruct H as [[r |] [Hr H]].
    + simpl in H. injection H as <-. right. exists r.
      split; [exact Hr | reflexivity].
    + injection H as <-. left. reflexivity.
  - intros H. injection H as <-. left. reflexivity.
Qed.

Lemma semi_supervised_stage_off (a : args) (d : Dataset image)
    (g : RandomState) :
  semi_supervised a = None ->
  semi_supervised_stage a (Some d) g = Py.Ok d.
Proof.
  intros Hf. unfold semi_supervised_stage,
    ClassificationDataloader.semi_supervised_stage.
  simpl. rewrite Hf. reflexivity.
Qed.



(** [ConcatDataset([a, b])] lists [a] first and [b] after it, each in its
    own order. *)
Lemma concat_pair_order (a b : Dataset image) (i : nat) :
  ((i < len a)%nat ->
     getitem (ConcatDataset [a; b]) i = getitem a i)
  /\ ((len a <= i)%nat -> (i < len a + len b)%nat ->
        getitem (ConcatDataset [a; b]) i = getitem b (i - len a)).
Proof.
  split.
  - intros Hi. simpl. apply Nat.ltb_lt in Hi. rewrite Hi. reflexivity.
  - intros Hge Hlt. simpl.
    assert (H1 : (i <? len a)%nat = false) by (apply Nat.ltb_ge; exact Hge).
    assert (H2 : (i - len a <? len b)%nat = true)
      by (apply Nat.ltb_lt; lia).
    rewrite H1, H2. reflexivity.
Qed.

(** C2 (what the code does).  With replay enabled and a semi-supervised
    fraction set, the task split comes first and a replay subset, when the
    sampler returns one, is appended after the primary subset, order
    preserved; the stratified subsampling is then attempted on the
    concatenation, and fails: a [ConcatDataset] has no [targets], so the
    call raises [AttributeError] and no training subset is produced. *)
Theorem semi_supervised_after_replay_raises (a : args) (g : RandomState)
    (T_train T_val : transform) (train val primary r : Dataset image)
    (f : Py.float) :
  prepare_transforms (dataset a) = Py.Ok (T_train, T_val) ->
  prepare_datasets (dataset a) T_train T_val (data_dir a) (train_dir a)
    (val_dir a) (train_domain a) = Py.Ok (train, val) ->
  String.eqb (training_data_source a) "all_tasks" = false ->
  replay a = true ->
  semi_supervised a = Some f ->
  select_training_data a train g = Py.Ok (Some primary) ->
  replay_dataset_of a train g = Py.Ok (Some r) ->
  (replay_stage a train (Some primary) g =
     Py.Ok (Some (ConcatDataset [primary; r]))
   /\ forall i,
        ((i < len primary)%nat ->
           getitem (ConcatDataset [primary; r]) i = getitem primary i)
        /\ ((len primary <= i)%nat -> (i < len primary + len r)%nat ->
              getitem (ConcatDataset [primary; r]) i
              = getitem r (i - len primary)))
  /\ prepare_data a g = Py.Raise (Py.AttributeError "targets").
Proof.
  intros HT HD Hsrc Hr Hf Hsel Hrep.
  assert (Hstage : replay_stage a train (Some primary) g =
                   Py.Ok (Some (ConcatDataset [primary; r]))).
  { rewrite (replay_stage_replaying a train _ g Hsrc Hr), Hrep.
    reflexivity. }
  split; [split; [exact Hstage | intros i; apply concat_pair_order] |].
  rewrite (prepare_data_loaded a g _ _ _ _ HT HD).
  rewrite Hsel. simpl. rewrite Hstage. simpl.
  unfold semi_supervised_stage,
    ClassificationDataloader.semi_supervised_stage.
  simpl. rewrite Hf. reflexivity.
Qed.

(** C10.  The validation loader does not depend on the continual-learning
    options: two successful calls that agree on the dataset name, the
    directories, the train domain, the batch size and the number of
    workers, and differ arbitrarily in every other option (and in the state
    of the global generator), return the same validation loader, and that
    loader is built over the whole validation dataset as loaded. *)
Theorem validation_loader_unaffected (a a' : args) (g g' : RandomState)
    (tl vl tl' vl' : DataLoader image) :
  dataset a = dataset a' -> data_dir a = data_dir a' ->
  train_dir a = train_dir a' -> val_dir a = val_dir a' ->
  train_domain a = train_domain a' ->
  batch_size a = batch_size a' -> num_workers a = num_workers a' ->
  prepare_data a g = Py.Ok (tl, vl) ->
  prepare_data a' g' = Py.Ok (tl', vl') ->
  vl = vl'
  /\ exists T_train T_val train val,
       prepare_transforms (dataset a) = Py.Ok (T_train, T_val)
       /\ prepare_datasets (dataset a) T_train T_val (data_dir a)
            (train_dir a) (val_dir a) (train_domain a) = Py.Ok (train, val)
       /\ vl = {| dl_dataset := val; dl_batch_size := batch_size a;
                  dl_shuffle := false; dl_num_workers := num_workers a;
                  dl_pin_memory := true; dl_drop_last := false |}.
Proof.
  intros Hd Hdd Htd Hvd Htm Hb Hn H H'.
  apply prepare_data_Ok in H.
  destruct H as [T_train [T_val [train [val [s1 [s2 [s3
                  [HT [HD [_ [_ [_ Hl]]]]]]]]]]]].
  apply prepare_data_Ok in H'.
  destruct H' as [T_train' [T_val' [train' [val' [s1' [s2' [s3'
                  [HT' [HD' [_ [_ [_ Hl']]]]]]]]]]]].
  rewrite <- Hd in HT'. rewrite HT in HT'. injection HT' as <- <-.
  rewrite <- Hd, <- Hdd, <- Htd, <- Hvd, <- Htm in HD'.
  rewrite HD in HD'. injection HD' as <- <-.
  apply prepare_dataloaders_Ok in Hl. destruct Hl as [_ [Hvl _]].
  apply prepare_dataloaders_Ok in Hl'. destruct Hl' as [_ [Hvl' _]].
  rewrite <- Hb, <- Hn in Hvl'. split; [congruence |].
  exists T_train, T_val, train, val. repeat split; assumption.
Qed.

(** The Task Partitioner and the Replay Sampler draw their randomness from
    the declared seed only, never from the process-global generator
    (spec 5). *)
Hypothesis split_dataset_seeded :
  forall d tasks idx n strategy seed g1 g2,
    split_dataset d tasks idx n strategy seed g1 =
    split_dataset d tasks idx n strategy seed g2.
Hypothesis split_dataset_subset_seeded :
  forall d tasks idxs n strategy seed p m g1 g2,
    split_dataset_subset d tasks idxs n strategy seed p m g1 =
    split_dataset_subset d tasks idxs n strategy seed p m g2.

Lemma select_training_data_seeded (a : args) (train : Dataset image)
    (g1 g2 : RandomState) :
  select_training_data a train g1 = select_training_data a train g2.
Proof.
  unfold select_training_data,
    ClassificationDataloader.select_training_data.
  destruct (String.eqb (training_data_source a) "all_tasks");
    [reflexivity |].
  destruct (String.eqb (training_data_source a) "current_task").
  - rewrite (split_dataset_seeded _ _ _ _ _ _ g1 g2). reflexivity.
  - destruct (String.eqb (training_data_source a) "seen_tasks");
      [| reflexivity].
    destruct (range_task_idx (training_task_idx a) 1); simpl;
      [| reflexivity].
    rewrite (split_dataset_seeded _ _ _ _ _ _ g1 g2). reflexivity.
Qed.

Lemma replay_stage_seeded (a : args) (train : Dataset image)
    (cur : option (Dataset image)) (g1 g2 : RandomState) :
  replay_stage a train cur g1 = replay_stage a train cur g2.
Proof.
  unfold replay_stage, ClassificationDataloader.replay_stage,
    ClassificationDataloader.replay_dataset_of.
  destruct (String.eqb (training_data_source a) "all_tasks" && replay a);
    [reflexivity |].
  destruct (replay a); [| reflexivity].
  destruct (range_task_idx (training_task_idx a) 0); simpl; [| reflexivity].
  rewrite (split_dataset_subset_seeded _ _ _ _ _ _ _ _ g1 g2). reflexivity.
Qed.



End OrchestratorProperties.

(* ===================================================================== *)
(** * The orchestrator with the partitioner and sampler of the spec        *)
(* ===================================================================== *)

Lemma map_result_In {A B : Type} (f : A -> Py.result B) (l : list A)
    (ys : list B) :
  SpecModel.map_result f l = Py.Ok ys ->
  forall y, In y ys -> exists x, In x l /\ f x = Py.Ok y.
Proof.
  revert ys. induction l as [| x rest IH]; simpl; intros ys H y Hy.
  - injection H as <-. destruct Hy.
  - apply bind_Ok in H. destruct H as [y0 [Hx H]].
    apply bind_Ok in H. destruct H as [ys0 [Hrest H]].
    injection H as <-. destruct Hy as [<- | Hy].
    + exists x. split; [left; reflexivity | exact Hx].
    + destruct (IH ys0 Hrest y Hy) as [x' [Hin Hfx]].
      exists x'. split; [right; exact Hin | exact Hfx].
Qed.

Lemma In_firstn {A : Type} (n : nat) (l : list A) (x : A) :
  In x (firstn n l) -> In x l.
Proof.
  revert l. induction n as [| n IH]; intros [| y l]; simpl; intros H;
    try contradiction.
  destruct H as [H | H]; [left; exact H | right; exact (IH l H)].
Qed.

Section SpecModelProperties.
Import Torch ClassificationDataloader.
Variable image : Type.
Variable joinpath : string -> string -> string.
Variable sandbox_dir : string.
Variable construct : dataset_ctor -> Py.result (Dataset image).
Variable RandomState : Type.
Variable seeded : Z -> RandomState.
Variable stratified_shuffle_split :
  list nat -> Py.float -> list Z -> RandomState ->
  Py.result (list nat * list nat).
Variable derive_tasks :
  option string -> option Z -> Z -> list Z -> list (list Z).
Variable choose : option Z -> nat -> nat -> list nat.

Let split_dataset := SpecModel.split_dataset image RandomState derive_tasks.
Let split_dataset_subset :=
  SpecModel.split_dataset_subset image RandomState derive_tasks choose.
Let resolve := SpecModel.resolve image derive_tasks.
Let task_subset := SpecModel.task_subset image derive_tasks.
Let restrict := SpecModel.restrict image.
Let draw := SpecModel.draw choose.
Let prepare_datasets :=
  ClassificationDataloader.prepare_datasets image joinpath sandbox_dir
    construct.
Let select_training_data :=
  ClassificationDataloader.select_training_data image RandomState
    (Dataset image) split_dataset.
Let replay_dataset_of :=
  ClassificationDataloader.replay_dataset_of image RandomState
    split_dataset_subset.
Let replay_stage :=
  ClassificationDataloader.replay_stage image RandomState
    split_dataset_subset.
Let semi_supervised_stage :=
  ClassificationDataloader.semi_supervised_stage image RandomState seeded
    stratified_shuffle_split.
Let prepare_data :=
  ClassificationDataloader.prepare_data image joinpath sandbox_dir construct
    RandomState seeded stratified_shuffle_split (Dataset image)
    split_dataset split_dataset_subset.

Lemma draw_incl (seed : option Z) (k : nat) (pool : list nat) (i : nat) :
  In i (draw seed k pool) -> In i pool.
Proof.
  unfold draw, SpecModel.draw. intros H.
  apply In_firstn in H. apply in_flat_map in H.
  destruct H as [p [_ Hp]].
  destruct (nth_error pool p) as [j |] eqn:Hj; [| destruct Hp].
  destruct Hp as [<- | []]. exact (nth_error_In _ _ Hj).
Qed.

Lemma draw_length (seed : option Z) (k : nat) (pool : list nat) :
  (List.length (draw seed k pool) <= k)%nat.
Proof. unfold draw, SpecModel.draw. apply firstn_le_length. Qed.

(** Every index of the subset of task [k] is assigned to task [k]. *)
Lemma task_subset_assigned (d : Dataset image)
    (tasks : option (list (list Z))) (k : Z) (n : option Z)
    (strategy : option string) (seed : option Z)
    (targets : list Z) (groups : list (list Z)) (idxs : list nat) :
  resolve d tasks n strategy seed = Py.Ok (targets, groups) ->
  task_subset d tasks (TaskIdxInt k) n strategy seed = Py.Ok idxs ->
  forall i, In i idxs ->
    exists j, SpecModel.task_of_index groups targets i = Some j
              /\ Z.of_nat j = k.
Proof.
  intros Hres Hsub i Hi.
  unfold task_subset, SpecModel.task_subset in Hsub.
  fold resolve in Hsub. rewrite Hres in Hsub. simpl in Hsub.
  destruct (Z.of_nat (List.length groups) - 1 <? k); simpl in Hsub;
    [discriminate Hsub |].
  injection Hsub as <-.
  unfold SpecModel.task_indices in Hi. apply filter_In in Hi.
  destruct Hi as [_ Hb]. unfold SpecModel.belongs in Hb.
  destruct (SpecModel.task_of_index groups targets i) as [j |];
    [| discriminate Hb].
  exists j. split; [reflexivity |].
  simpl in Hb. rewrite orb_false_r in Hb. apply Z.eqb_eq in Hb. exact Hb.
Qed.

Let replay_indices := SpecModel.replay_indices choose.

(** What the sampler returns when it returns a dataset. *)
Lemma split_dataset_subset_Some (d : Dataset image)
    (tasks : option (list (list Z))) (replay_task_idxs : list Z)
    (n : option Z) (strategy : option string) (seed : option Z)
    (p : option Py.float) (m : option Z) (g : RandomState)
    (r : Dataset image) :
  split_dataset_subset d tasks replay_task_idxs n strategy seed p m g =
    Py.Ok (Some r) ->
  exists targets groups idxs,
    resolve d tasks n strategy seed = Py.Ok (targets, groups)
    /\ r = restrict d targets idxs
    /\ forall i, In i idxs ->
         exists k j, In k replay_task_idxs
                     /\ SpecModel.task_of_index groups targets i = Some j
                     /\ Z.of_nat j = k.
Proof.
  unfold split_dataset_subset, SpecModel.split_dataset_subset.
  fold resolve. fold task_subset. fold draw. fold restrict.
  intros H.
  destruct replay_task_idxs as [| k0 rest] eqn:Hidxs; [discriminate H |].
  rewrite <- Hidxs in *.
  destruct (SpecModel.budget_unset p m); [discriminate H |].
  apply bind_Ok in H. destruct H as [[targets groups] [Hres H]].
  apply bind_Ok in H. destruct H as [subsets [Hsubs H]].
  injection H as <-.
  exists targets, groups. eexists. split; [exact Hres |].
  split; [reflexivity |].
  intros i Hi. unfold SpecModel.replay_indices in Hi. fold draw in Hi.
  assert (Hpool : In i (List.concat subsets)).
  { destruct m as [n0 |].
    - exact (draw_incl _ _ _ _ Hi).
    - destruct p as [p0 |]; [| destruct Hi].
      apply in_concat in Hi. destruct Hi as [l [Hl Hil]].
      apply in_map_iff in Hl. destruct Hl as [s [<- Hs]].
      apply in_concat. exists s. split; [exact Hs |].
      exact (draw_incl _ _ _ _ Hil). }
  apply in_concat in Hpool. destruct Hpool as [s [Hs His]].
  destruct (map_result_In _ _ _ Hsubs s Hs) as [k [Hk Hsub]].
  destruct (task_subset_assigned _ _ _ _ _ _ _ _ _ Hres Hsub i His)
    as [j [Hj Hjk]].
  exists k, j. repeat split; assumption.
Qed.

(** What the sampler returns when there is a task to replay, a budget is
    set and the partitioner succeeds on every replayed task. *)
Lemma split_dataset_subset_draws (d : Dataset image)
    (tasks : option (list (list Z))) (replay_task_idxs : list Z)
    (n : option Z) (strategy : option string) (seed : option Z)
    (p : option Py.float) (m : option Z) (g : RandomState)
    (targets : list Z) (groups : list (list Z)) (subsets : list (list nat)) :
  replay_task_idxs <> [] ->
  SpecModel.budget_unset p m = false ->
  resolve d tasks n strategy seed = Py.Ok (targets, groups) ->
  SpecModel.map_result
    (fun k => task_subset d tasks (TaskIdxInt k) n strategy seed)
    replay_task_idxs = Py.Ok subsets ->
  split_dataset_subset d tasks replay_task_idxs n strategy seed p m g
  = Py.Ok (Some (restrict d targets (replay_indices seed p m subsets))).
Proof.
  intros Hne Hb Hres Hsubs.
  unfold split_dataset_subset, SpecModel.split_dataset_subset.
  fold resolve. fold task_subset. fold draw. fold restrict.
  destruct replay_task_idxs as [| k0 rest] eqn:Hidxs;
    [contradiction Hne; reflexivity |].
  rewrite <- Hidxs in *. rewrite Hb, Hres. simpl. rewrite Hsubs.
  reflexivity.
Qed.

Lemma range_nonempty (t : Z) : 1 <= t -> Py.range t <> [].
Proof.
  intros Ht H. assert (Hin : In 0 (Py.range t)) by (apply range_spec; lia).
  rewrite H in Hin. destruct Hin.
Qed.

Lemma range_NoDup (t : Z) : NoDup (Py.range t).
Proof.
  unfold Py.range. generalize (seq_NoDup (Z.to_nat t) 0).
  generalize (seq 0 (Z.to_nat t)). intros l Hl.
  induction Hl as [| x l Hx Hl IH]; simpl; constructor.
  - intros Hin. apply in_map_iff in Hin. destruct Hin as [y [Hy Hin]].
    apply Nat2Z.inj in Hy. subst y. exact (Hx Hin).
  - exact IH.
Qed.

(** Line 340: with an int index the sampler is handed [range(t)]. *)
Lemma replay_dataset_of_int (a : args) (train : Dataset image)
    (g : RandomState) (t : Z) :
  training_task_idx a = TaskIdxInt t ->
  replay_dataset_of a train g
  = split_dataset_subset train (training_tasks a) (Py.range t)
      (training_num_tasks a) (training_split_strategy a)
      (training_split_seed a) (replay_proportion a)
      (replay_memory_bank_size a) g.
Proof.
  intros Ht. unfold replay_dataset_of,
    ClassificationDataloader.replay_dataset_of.
  rewrite Ht. cbn [range_task_idx Py.bind]. rewrite Z.add_0_r.
  reflexivity.
Qed.

(** C5.  When replay takes place (replay on, an int task index [t], a
    source other than ["all_tasks"]), the replay stage hands the sampler
    exactly the task list [range(t)], whose members are exactly
    [0 .. t-1], each once, and appends what the sampler returns after the
    primary subset; with a budget set and [t >= 1] the replay subset is
    drawn from the partitioner's subsets of exactly those tasks; and every
    index of a replay subset is assigned to a task strictly before [t]:
    none belongs to task [t] or to a later task. *)
Theorem replay_only_from_prior_tasks (a : args)
    (train primary : Dataset image) (g : RandomState) (t : Z) :
  training_task_idx a = TaskIdxInt t ->
  replay a = true ->
  String.eqb (training_data_source a) "all_tasks" = false ->
  replay_stage a train (Some primary) g
  = (replay_dataset <-
       split_dataset_subset train (training_tasks a) (Py.range t)
         (training_num_tasks a) (training_split_strategy a)
         (training_split_seed a) (replay_proportion a)
         (replay_memory_bank_size a) g ;;
     match replay_dataset with
     | Some replay_dataset =>
         Py.Ok (Some (ConcatDataset [primary; replay_dataset]))
     | None => Py.Ok (Some primary)
     end)
  /\ (forall k, In k (Py.range t) <-> 0 <= k < t)
  /\ NoDup (Py.range t)
  /\ (forall targets groups subsets,
        1 <= t ->
        SpecModel.budget_unset (replay_proportion a)
          (replay_memory_bank_size a) = false ->
        resolve train (training_tasks a) (training_num_tasks a)
          (training_split_strategy a) (training_split_seed a)
        = Py.Ok (targets, groups) ->
        SpecModel.map_result
          (fun k => task_subset train (training_tasks a) (TaskIdxInt k)
                      (training_num_tasks a) (training_split_strategy a)
                      (training_split_seed a))
          (Py.range t) = Py.Ok subsets ->
        replay_stage a train (Some primary) g
        = Py.Ok (Some (ConcatDataset
                         [primary;
                          restrict train targets
                            (replay_indices (training_split_seed a)
                               (replay_proportion a)
                               (replay_memory_bank_size a) subsets)])))
  /\ (forall out,
        replay_stage a train (Some primary) g = Py.Ok (Some out) ->
        out = primary
        \/ exists targets groups idxs,
             resolve train (training_tasks a) (training_num_tasks a)
               (training_split_strategy a) (training_split_seed a)
             = Py.Ok (targets, groups)
             /\ out = ConcatDataset [primary; restrict train targets idxs]
             /\ forall i, In i idxs ->
                  exists j,
                    SpecModel.task_of_index groups targets i = Some j
                    /\ 0 <= Z.of_nat j < t
                    /\ forall u, t <= u ->
                         SpecModel.belongs [u] groups targets i = false).
Proof.
  intros Ht Hr Hsrc.
  assert (Hstage :
    replay_stage a train (Some primary) g
    = (replay_dataset <-
         split_dataset_subset train (training_tasks a) (Py.range t)
           (training_num_tasks a) (training_split_strategy a)
           (training_split_seed a) (replay_proportion a)
           (replay_memory_bank_size a) g ;;
       match replay_dataset with
       | Some replay_dataset =>
           Py.Ok (Some (ConcatDataset [primary; replay_dataset]))
       | None => Py.Ok (Some primary)
       end)).
  { unfold replay_stage. rewrite replay_stage_replaying by assumption.
    fold replay_dataset_of. rewrite (replay_dataset_of_int a train g t Ht).
    reflexivity. }
  split; [exact Hstage |].
  split; [intros k; apply range_spec |].
  split; [apply range_NoDup |].
  split.
  - intros targets groups subsets Hpos Hb Hres Hsubs.
    rewrite Hstage.
    rewrite (split_dataset_subset_draws _ _ _ _ _ _ _ _ g _ _ _
               (range_nonempty t Hpos) Hb Hres Hsubs).
    reflexivity.
  - intros out Hout. rewrite Hstage in Hout.
    apply bind_Ok in Hout. destruct Hout as [[r |] [Hsam Hout]].
    + injection Hout as <-. right.
      destruct (split_dataset_subset_Some _ _ _ _ _ _ _ _ _ _ Hsam)
        as [targets [groups [idxs [Hres [-> Hall]]]]].
      exists targets, groups, idxs.
      split; [exact Hres |]. split; [reflexivity |].
      intros i Hi. destruct (Hall i Hi) as [k [j [Hk [Hj Hjk]]]].
      apply range_spec in Hk. exists j. split; [exact Hj |].
      split; [lia |].
      intros u Hu. unfold SpecModel.belongs. rewrite Hj. simpl.
      rewrite orb_false_r. apply Z.eqb_neq. lia.
    + injection Hout as <-. left. reflexivity.
Qed.



Lemma replay_dataset_of_first_task (a : args) (train : Dataset image)
    (g : RandomState) :
  training_task_idx a = TaskIdxInt 0 ->
  replay_dataset_of a train g = Py.Ok None.
Proof.
  intros Ht. rewrite (replay_dataset_of_int a train g 0 Ht). reflexivity.
Qed.

(** C6 (as amended).  For [training_data_source] ["current_task"] or
    ["seen_tasks"], task index 0 and [replay = True]: the sampler returns
    [None], the orchestrator leaves the training subset as it was, the
    subset selected is the task-0 subset [D0] in both modes, and with no
    semi-supervised fraction the loaders are those built over exactly
    [D0] and the validation dataset (which exist when [D0] is not empty,
    the batch size is positive and the number of workers is not
    negative). *)
Theorem first_task_replay_noop (a : args) (g : RandomState)
    (T_train T_val : transform) (train val D0 rest : Dataset image) :
  training_task_idx a = TaskIdxInt 0 -> replay a = true ->
  (training_data_source a = "current_task"
   \/ training_data_source a = "seen_tasks") ->
  prepare_transforms (dataset a) = Py.Ok (T_train, T_val) ->
  prepare_datasets (dataset a) T_train T_val (data_dir a) (train_dir a)
    (val_dir a) (train_domain a) = Py.Ok (train, val) ->
  split_dataset train (training_tasks a) (TaskIdxInt 0)
    (training_num_tasks a) (training_split_strategy a)
    (training_split_seed a) g = Py.Ok (D0, rest) ->
  replay_dataset_of a train g = Py.Ok None
  /\ select_training_data a train g = Py.Ok (Some D0)
  /\ replay_stage a train (Some D0) g = Py.Ok (Some D0)
  /\ (semi_supervised a = None ->
      prepare_data a g =
        prepare_dataloaders image D0 val (batch_size a) (num_workers a))
  /\ (semi_supervised a = None ->
      0 < batch_size a -> 0 <= num_workers a -> len D0 <> 0%nat ->
      prepare_data a g =
        Py.Ok ({| dl_dataset := D0; dl_batch_size := batch_size a;
                  dl_shuffle := true; dl_num_workers := num_workers a;
                  dl_pin_memory := true; dl_drop_last := true |},
               {| dl_dataset := val; dl_batch_size := batch_size a;
                  dl_shuffle := false; dl_num_workers := num_workers a;
                  dl_pin_memory := true; dl_drop_last := false |})).
Proof.
  intros Ht Hr Hsrc HT HD Hsplit.
  pose proof (replay_dataset_of_first_task a train g Ht) as Hnone.
  assert (Hsel : select_training_data a train g = Py.Ok (Some D0)).
  { destruct Hsrc as [Hs | Hs].
    - unfold select_training_data.
      rewrite select_current_task by exact Hs. rewrite Ht.
      fold split_dataset. rewrite Hsplit. reflexivity.
    - unfold select_training_data.
      rewrite select_seen_tasks by exact Hs. rewrite Ht.
      fold split_dataset.
      change (range_task_idx (TaskIdxInt 0) 1) with (Py.Ok [0]).
      cbv beta iota delta [Py.bind].
      change (split_dataset train (training_tasks a) (TaskIdxList [0]))
        with (split_dataset train (training_tasks a) (TaskIdxInt 0)).
      rewrite Hsplit. reflexivity. }
  assert (Hnot_all :
            String.eqb (training_data_source a) "all_tasks" = false).
  { destruct Hsrc as [Hs | Hs]; rewrite Hs; reflexivity. }
  assert (Hstage : replay_stage a train (Some D0) g = Py.Ok (Some D0)).
  { unfold replay_stage.
    rewrite replay_stage_replaying by assumption.
    fold replay_dataset_of. rewrite Hnone. reflexivity. }
  assert (Hfinal : semi_supervised a = None ->
            prepare_data a g =
            prepare_dataloaders image D0 val (batch_size a) (num_workers a)).
  { intros Hsemi. unfold prepare_data.
    rewrite (prepare_data_loaded _ _ _ _ _ _ _ _ _ _ _ _ _ _ train val
               HT HD).
    fold select_training_data. rewrite Hsel.
    cbv beta iota delta [Py.bind].
    fold replay_stage. rewrite Hstage.
    cbv beta iota delta [Py.bind].
    rewrite semi_supervised_stage_off by exact Hsemi. reflexivity. }
  split; [exact Hnone |]. split; [exact Hsel |]. split; [exact Hstage |].
  split; [exact Hfinal |].
  intros Hsemi Hb Hn Hlen. rewrite (Hfinal Hsemi).
  apply prepare_dataloaders_valid; assumption.
Qed.


End SpecModelProperties.

(* ===================================================================== *)
(** * Concrete runs                                                        *)
(* ===================================================================== *)

Import Torch ClassificationDataloader.

(** With [distill_lamb = 0] and finite losses the step returns the primary
    loss. *)
Lemma training_step_loss_witness :
  exists r,
    Demo.training_step Demo.zero_lamb_self Demo.finite_batch 0 = Py.Ok r
    /\ Tensor.same (Predictive.returned_loss r)
                   (Predictive.out_loss Demo.finite_batch).
Proof.
  pose proof
    (training_step_loss Demo.prec Demo.emax Demo.embedding
       (Predictive.step_out Demo.embedding) Demo.distill_predictor
       (SpecModel.byol_loss_func Demo.prec Demo.emax)
       Demo.super_training_step Demo.zero_lamb_self Demo.finite_batch 0
       Demo.t_one [Demo.t_one] [Demo.t_one] [Demo.t_one] [Demo.t_one]
       eq_refl) as H.
  cbv zeta in H. destruct H as [Hstep Hsame].
  eexists. split; [exact Hstep |].
  apply Hsame; vm_compute; reflexivity.
Defined.

(** With [distill_lamb = 0] and a NaN in a teacher embedding the distillation
    loss is NaN, and so is the returned loss, while the primary loss is
    [1.0]. *)
Lemma training_step_loss_counterexample :
  Py.float_eq (Predictive.distill_lamb Demo.zero_lamb_self)
              (Py.float_of_int 0) = true
  /\ Demo.training_step Demo.zero_lamb_self Demo.nan_batch 0 =
     Py.Ok {| Predictive.logged :=
                [("train_predictive_distill_loss", S754_nan)];
              Predictive.returned_loss := S754_nan |}
  /\ ~ Tensor.same S754_nan (Predictive.out_loss Demo.nan_batch).
Proof.
  split; [vm_compute; reflexivity |].
  split; [vm_compute; reflexivity |].
  unfold Tensor.same. intros [H | H]; vm_compute in H; discriminate H.
Qed.

(** [distill_lamb = 0.5] doubles the rate; [distill_lamb = 2] leaves it. *)
Lemma predictor_lr_scaling_witness :
  Predictive.distill_predictor_lr Demo.half_lamb_self
    = Py.Ok (Py.float_of_int 2)
  /\ Predictive.distill_predictor_lr Demo.two_lamb_self = Py.Ok Demo.one.
Proof.
  split.
  - assert (Hpos : Py.float_gt (Predictive.distill_lamb Demo.half_lamb_self)
                     (Py.float_of_int 0) = true) by (vm_compute; reflexivity).
    pose proof (predictor_lr_scaling unit tt (Py.Ok []) Demo.half_lamb_self
                  Hpos) as H.
    cbv zeta in H. destruct H as [H _]. rewrite H. vm_compute. reflexivity.
  - assert (Hpos : Py.float_gt (Predictive.distill_lamb Demo.two_lamb_self)
                     (Py.float_of_int 0) = true) by (vm_compute; reflexivity).
    pose proof (predictor_lr_scaling unit tt (Py.Ok []) Demo.two_lamb_self
                  Hpos) as H.
    cbv zeta in H. destruct H as [_ [_ [_ H]]]. apply H. reflexivity.
Defined.

(** [distill_lamb = 0]: building the parameter groups raises. *)
Lemma predictor_lr_division_by_zero_witness :
  Demo.learnable_params Demo.zero_lamb_self = Py.Raise Py.ZeroDivisionError.
Proof.
  assert (H0 : Py.float_eq (Predictive.distill_lamb Demo.zero_lamb_self)
                 (Py.float_of_int 0) = true) by (vm_compute; reflexivity).
  exact (proj2 (proj1 (predictor_lr_division_by_zero unit tt (Py.Ok [])
                         Demo.zero_lamb_self) H0)).
Defined.


(** Task 1 with replay of task 0 and a semi-supervised fraction of one half:
    the call raises [AttributeError]. *)
Lemma semi_supervised_after_replay_raises_witness :
  Demo.prepare_data Demo.semi_supervised_args 0%nat
  = Py.Raise (Py.AttributeError "targets").
Proof.
  exact (proj2 (semi_supervised_after_replay_raises Demo.image Demo.joinpath
                  Demo.sandbox_dir Demo.construct Demo.RandomState
                  Demo.seeded Demo.stratified_shuffle_split
                  (Dataset Demo.image) Demo.split_dataset
                  Demo.split_dataset_subset Demo.semi_supervised_args 0%nat
                  (TrainTransform cifar_pipeline)
                  (ValTransform cifar_pipeline)
                  Demo.train_dataset Demo.val_dataset
                  Demo.task1_subset Demo.task1_replay Demo.half
                  eq_refl eq_refl eq_refl eq_refl eq_refl eq_refl eq_refl)).
Defined.

(** The current-task run and the seen-tasks run, started with different
    generator states, train on different subsets and validate on the same
    loader. *)
Lemma validation_loader_unaffected_witness :
  exists tl vl tl' vl',
    Demo.prepare_data Demo.base_args 0%nat = Py.Ok (tl, vl)
    /\ Demo.prepare_data Demo.seen_tasks_args 3%nat = Py.Ok (tl', vl')
    /\ tl <> tl' /\ vl = vl'.
Proof.
  destruct (Demo.prepare_data Demo.base_args 0%nat) as [[tl vl] | e] eqn:H;
    [| vm_compute in H; discriminate H].
  destruct (Demo.prepare_data Demo.seen_tasks_args 3%nat)
    as [[tl' vl'] | e] eqn:H'; [| vm_compute in H'; discriminate H'].
  exists tl, vl, tl', vl'.
  split; [reflexivity |]. split; [reflexivity |]. split.
  - vm_compute in H, H'. injection H as <- _. injection H' as <- _.
    discriminate.
  - exact (proj1 (validation_loader_unaffected Demo.image Demo.joinpath
                    Demo.sandbox_dir Demo.construct Demo.RandomState
                    Demo.seeded Demo.stratified_shuffle_split
                    (Dataset Demo.image) Demo.split_dataset
                    Demo.split_dataset_subset Demo.base_args
                    Demo.seen_tasks_args 0%nat 3%nat tl vl tl' vl'
                    eq_refl eq_refl eq_refl eq_refl eq_refl eq_refl eq_refl
                    H H')).
Defined.



(** Task 2 replays tasks 0 and 1 only: the sampler is handed [[0; 1]] and
    the four samples of those tasks follow the two of task 2. *)
Lemma replay_only_from_prior_tasks_witness :
  ClassificationDataloader.replay_stage Demo.image Demo.RandomState
    Demo.split_dataset_subset Demo.last_task_args Demo.train_dataset
    (Some Demo.task2_subset) 0%nat
  = Py.Ok (Some (ConcatDataset [Demo.task2_subset; Demo.task2_replay]))
  /\ (forall k, In k (Py.range 2) <-> 0 <= k < 2).
Proof.
  destruct (replay_only_from_prior_tasks Demo.image Demo.RandomState
              Demo.derive_tasks Demo.choose Demo.last_task_args
              Demo.train_dataset Demo.task2_subset 0%nat 2
              eq_refl eq_refl eq_refl) as [Hstage [Hk _]].
  split; [| exact Hk].
  unfold Demo.split_dataset_subset. rewrite Hstage. vm_compute. reflexivity.
Defined.



(** Task 0 with replay: the loaders are built over the task-0 subset and the
    validation dataset. *)
Lemma first_task_replay_noop_witness :
  Demo.prepare_data Demo.first_task_args 0%nat
  = Py.Ok ({| dl_dataset := Demo.task0_subset; dl_batch_size := 64;
              dl_shuffle := true; dl_num_workers := 4;
              dl_pin_memory := true; dl_drop_last := true |},
           {| dl_dataset := Demo.val_dataset; dl_batch_size := 64;
              dl_shuffle := false; dl_num_workers := 4;
              dl_pin_memory := true; dl_drop_last := false |}).
Proof.
  assert (Hb : 0 < batch_size Demo.first_task_args) by (simpl; lia).
  assert (Hn : 0 <= num_workers Demo.first_task_args) by (simpl; lia).
  assert (Hlen : len Demo.task0_subset <> 0%nat) by (simpl; discriminate).
  exact (proj2 (proj2 (proj2 (proj2
           (first_task_replay_noop Demo.image Demo.joinpath Demo.sandbox_dir
              Demo.construct Demo.RandomState Demo.seeded
              Demo.stratified_shuffle_split Demo.derive_tasks Demo.choose
              Demo.first_task_args 0%nat
              (TrainTransform cifar_pipeline) (ValTransform cifar_pipeline)
              Demo.train_dataset Demo.val_dataset
              Demo.task0_subset Demo.task0_rest
              eq_refl eq_refl (or_introl eq_refl)
              eq_refl eq_refl eq_refl)))) eq_refl Hb Hn Hlen).
Defined.

(** Task 0 with replay on ["all_tasks"]: the call raises, the sampler is
    never reached and no training subset exists.  Task 0 with replay on
    ["current_task"] and a semi-supervised fraction of one half: the final
    training subset is a one-sample subset of the two-sample task-0
    subset. *)
Lemma first_task_replay_noop_counterexample :
  (training_task_idx Demo.all_tasks_args = TaskIdxInt 0
   /\ replay Demo.all_tasks_args = true
   /\ Demo.prepare_data Demo.all_tasks_args 0%nat
      = Py.Raise (Py.Exception replay_not_supported))
  /\ (training_task_idx Demo.first_task_semi_args = TaskIdxInt 0
      /\ replay Demo.first_task_semi_args = true
      /\ exists tl vl,
           Demo.prepare_data Demo.first_task_semi_args 0%nat = Py.Ok (tl, vl)
           /\ dl_dataset tl <> Demo.task0_subset
           /\ len (dl_dataset tl) = 1%nat
           /\ len Demo.task0_subset = 2%nat).
Proof.
  split.
  - split; [reflexivity |]. split; [reflexivity |].
    vm_compute. reflexivity.
  - split; [reflexivity |]. split; [reflexivity |].
    destruct (Demo.prepare_data Demo.first_task_semi_args 0%nat)
      as [[tl vl] | e] eqn:H; [| vm_compute in H; discriminate H].
    exists tl, vl. split; [reflexivity |].
    vm_compute in H. injection H as <- _.
    split; [simpl; discriminate |]. split; reflexivity.
Qed.

(* ===================================================================== *)
(** * Further properties of the distillation wrapper                       *)
(* ===================================================================== *)

(** IEEE addition is commutative. *)
Lemma SFadd_comm (prec emax : Z) (x y : spec_float) :
  SFadd prec emax x y = SFadd prec emax y x.
Proof.
  destruct x as [sx | sx | | sx mx ex], y as [sy | sy | | sy my ey];
    try reflexivity; try (destruct sx, sy; reflexivity).
  unfold SFadd. rewrite (Z.min_comm ey ex). cbv zeta.
  f_equal. apply Z.add_comm.
Qed.

(** A rounded result carries the sign it was given, or is NaN. *)
Lemma binary_round_aux_shape (prec emax : Z) (sx : bool) (mx ex : Z)
    (lx : location) :
  binary_round_aux prec emax sx mx ex lx = S754_nan
  \/ binary_round_aux prec emax sx mx ex lx = S754_zero sx
  \/ (exists m e, binary_round_aux prec emax sx mx ex lx = S754_finite sx m e)
  \/ binary_round_aux prec emax sx mx ex lx = S754_infinity sx.
Proof.
  unfold binary_round_aux.
  destruct (shr_fexp prec emax mx ex lx) as [mrs' e'].
  destruct (shr_fexp prec emax
              (round_nearest_even (shr_m mrs') (loc_of_shr_record mrs')) e'
              loc_Exact) as [mrs'' e''].
  destruct (shr_m mrs'') as [| m | m].
  - right; left; reflexivity.
  - destruct (e'' <=? emax - prec).
    + right; right; left. exists m, e''. reflexivity.
    + right; right; right. reflexivity.
  - left; reflexivity.
Qed.

Lemma float_lt_zero_cases (x : Py.float) :
  Py.float_lt x (Py.float_of_int 0) = true ->
  x = S754_infinity true \/ exists m e, x = S754_finite true m e.
Proof.
  unfold Py.float_lt, SFltb. rewrite float_zero_value.
  destruct x as [s | s | | s m e]; simpl; try discriminate.
  - destruct s; [left; reflexivity | discriminate].
  - destruct s; [right; exists m, e; reflexivity | discriminate].
Qed.

Lemma float_ge_zero_cases (x : Py.float) :
  Py.float_ge x (Py.float_of_int 0) = true ->
  (exists s, x = S754_zero s) \/ x = S754_infinity false
  \/ exists m e, x = S754_finite false m e.
Proof.
  unfold Py.float_ge, SFleb. rewrite float_zero_value.
  destruct x as [s | s | | s m e]; simpl; try discriminate.
  - intros _. left. exists s. reflexivity.
  - destruct s; [discriminate | intros _; right; left; reflexivity].
  - destruct s; [discriminate |].
    intros _. right; right. exists m, e. reflexivity.
Qed.

(** A non-negative number divided by a negative one is never positive. *)
Lemma div_by_negative_not_positive (x y : Py.float) :
  Py.float_ge x (Py.float_of_int 0) = true ->
  Py.float_lt y (Py.float_of_int 0) = true ->
  Py.float_gt (SFdiv Py.float_prec Py.float_emax x y) (Py.float_of_int 0)
  = false.
Proof.
  intros Hx Hy. unfold Py.float_gt, SFltb. rewrite float_zero_value.
  destruct (float_ge_zero_cases x Hx) as [[s ->] | [-> | [mx [ex ->]]]];
    destruct (float_lt_zero_cases y Hy) as [-> | [my [ey ->]]];
    try reflexivity; try (destruct s; reflexivity).
  unfold SFdiv.
  destruct (SFdiv_core_binary Py.float_prec Py.float_emax (Z.pos mx) ex
              (Z.pos my) ey) as [[mz ez] lz].
  change (xorb false true) with true.
  destruct (binary_round_aux_shape Py.float_prec Py.float_emax true mz ez lz)
    as [-> | [-> | [[m [e ->]] | ->]]]; reflexivity.
Qed.

Section PredictiveExtras.
Import Predictive.
Variables prec emax : Z.
Variables (embedding batch params : Type).
Variable distill_predictor : embedding -> embedding.
Variable distill_predictor_parameters : params.
Variable byol_loss_func : embedding -> embedding -> Tensor.scalar.
Variable super_training_step : batch -> Z -> Py.result (step_out embedding).
Variable super_learnable_params : Py.result (list (param_group params)).

Let training_step :=
  Predictive.training_step prec emax embedding batch distill_predictor
    byol_loss_func super_training_step.
Let learnable_params :=
  Predictive.learnable_params params distill_predictor_parameters
    super_learnable_params.

(** X1.  The distillation loss is symmetric in the two views: a step whose
    wrapped method returns the views exchanged (with the same primary
    loss) logs and returns exactly the same values. *)
Theorem training_step_view_symmetry (self : self_t) (b b' : batch)
    (batch_idx : Z) (loss : Tensor.scalar)
    (z1 z2 frozen_z1 frozen_z2 : embedding) :
  super_training_step b batch_idx =
    Py.Ok (mk_step_out loss (z1, z2) (frozen_z1, frozen_z2)) ->
  super_training_step b' batch_idx =
    Py.Ok (mk_step_out loss (z2, z1) (frozen_z2, frozen_z1)) ->
  training_step self b batch_idx = training_step self b' batch_idx.
Proof.
  intros H H'. unfold training_step, Predictive.training_step.
  rewrite H, H'. simpl. unfold Predictive.distill_loss_of. simpl.
  unfold Tensor.add.
  rewrite (SFadd_comm prec emax
             (byol_loss_func (distill_predictor z2) frozen_z2)
             (byol_loss_func (distill_predictor z1) frozen_z1)).
  reflexivity.
Qed.

(** X2.  NaN is never masked: when the primary loss or the loss of either
    view is NaN, the step returns NaN, whatever [distill_lamb] is (also
    for [distill_lamb = 0]). *)
Theorem training_step_nan_propagates (self : self_t) (b : batch)
    (batch_idx : Z) (loss : Tensor.scalar)
    (z1 z2 frozen_z1 frozen_z2 : embedding) :
  super_training_step b batch_idx =
    Py.Ok (mk_step_out loss (z1, z2) (frozen_z1, frozen_z2)) ->
  loss = S754_nan
  \/ byol_loss_func (distill_predictor z1) frozen_z1 = S754_nan
  \/ byol_loss_func (distill_predictor z2) frozen_z2 = S754_nan ->
  exists r, training_step self b batch_idx = Py.Ok r
            /\ returned_loss r = S754_nan.
Proof.
  intros H Hnan. unfold training_step, Predictive.training_step.
  rewrite H. simpl. eexists. split; [reflexivity |].
  unfold Predictive.distill_loss_of. simpl.
  unfold Tensor.add, Tensor.mul, Tensor.div.
  destruct Hnan as [-> | [-> | ->]].
  - reflexivity.
  - simpl.
    destruct (Tensor.of_float prec emax (distill_lamb self)), loss;
      reflexivity.
  - replace (SFadd prec emax
               (byol_loss_func (distill_predictor z1) frozen_z1) S754_nan)
      with S754_nan
      by (destruct (byol_loss_func (distill_predictor z1) frozen_z1);
          reflexivity).
    simpl.
    destruct (Tensor.of_float prec emax (distill_lamb self)), loss;
      reflexivity.
Qed.

(** X3.  A negative [distill_lamb] is accepted without an error and flips
    the sign of the rate: with a base rate [lr >= 0] the predictor's
    learning rate is [lr / distill_lamb], which is never positive. *)
Theorem predictor_lr_negative_lamb (self : self_t) :
  Py.float_lt (distill_lamb self) (Py.float_of_int 0) = true ->
  Py.float_ge (lr self) (Py.float_of_int 0) = true ->
  distill_predictor_lr self =
    Py.Ok (SFdiv Py.float_prec Py.float_emax (lr self) (distill_lamb self))
  /\ Py.float_gt
       (SFdiv Py.float_prec Py.float_emax (lr self) (distill_lamb self))
       (Py.float_of_int 0) = false.
Proof.
  intros Hneg Hlr. split.
  - unfold distill_predictor_lr, Py.float_ge, SFleb.
    rewrite float_one_value.
    destruct (float_lt_zero_cases _ Hneg) as [-> | [m [e ->]]];
      reflexivity.
  - apply div_by_negative_not_positive; assumption.
Qed.

(** X4.  A NaN [distill_lamb] raises nothing: the comparison with 1 is
    false, the division is carried out, and the predictor's learning rate
    is NaN. *)
Theorem predictor_lr_nan_lamb (self : self_t) :
  distill_lamb self = S754_nan ->
  distill_predictor_lr self = Py.Ok S754_nan.
Proof.
  intros Hnan. unfold distill_predictor_lr, Py.float_ge, SFleb.
  rewrite Hnan, float_one_value. simpl.
  destruct (lr self); reflexivity.
Qed.

(** X5.  Whenever [learnable_params] returns, the parent's groups come
    first, unchanged and in order, followed by exactly one group, named
    ["distill_predictor"], holding the predictor's parameters and the
    wrapper's weight decay; and when the rate is defined, an exception of
    the parent is passed on. *)
Theorem learnable_params_extends_parent (self : self_t) :
  (forall groups, learnable_params self = Py.Ok groups ->
     exists parent rate,
       super_learnable_params = Py.Ok parent
       /\ distill_predictor_lr self = Py.Ok rate
       /\ groups = parent ++
            [mk_param_group "distill_predictor" distill_predictor_parameters
               (Some rate) (Some (weight_decay self))]
       /\ List.length groups = S (List.length parent)
       /\ firstn (List.length parent) groups = parent)
  /\ (forall rate e, distill_predictor_lr self = Py.Ok rate ->
        super_learnable_params = Py.Raise e ->
        learnable_params self = Py.Raise e).
Proof.
  split.
  - intros groups H. unfold learnable_params, Predictive.learnable_params in H.
    apply bind_Ok in H. destruct H as [rate [Hrate H]].
    apply bind_Ok in H. destruct H as [parent [Hparent H]].
    injection H as <-. exists parent, rate.
    split; [exact Hparent |]. split; [exact Hrate |].
    split; [reflexivity |]. split.
    + rewrite length_app. simpl. lia.
    + rewrite firstn_app, Nat.sub_diag, firstn_all. simpl.
      apply app_nil_r.
  - intros rate e Hrate Hparent.
    unfold learnable_params, Predictive.learnable_params.
    rewrite Hrate, Hparent. reflexivity.
Qed.

End PredictiveExtras.

(* ===================================================================== *)
(** * Further properties of the data preparation                           *)
(* ===================================================================== *)

(** Decide every test [String.eqb d k] of the goal. *)
Ltac decide_names d :=
  repeat match goal with
         | |- context [String.eqb d ?k] =>
             let b := fresh "b" in
             generalize (String.eqb d k); intro b; destruct b
         end.

Ltac invert_binds :=
  repeat match goal with
         | H : Py.bind _ _ = Py.Ok _ |- _ =>
             apply bind_Ok in H; destruct H as [? [? H]]
         | H : Py.Ok _ = Py.Ok _ |- _ => injection H as ? ?
         end.

(** X6.  [prepare_transforms] accepts exactly the seven dataset names that
    [prepare_datasets] asserts, and always pairs the training and validation
    transforms of one and the same pipeline; any other name fails the
    assertion. *)
Theorem prepare_transforms_domain (d : string) :
  if ClassificationDataloader.str_in d ClassificationDataloader.dataset_names
  then exists p, ClassificationDataloader.prepare_transforms d
                 = Py.Ok (ClassificationDataloader.TrainTransform p,
                          ClassificationDataloader.ValTransform p)
  else ClassificationDataloader.prepare_transforms d
       = Py.Raise Py.AssertionError.
Proof.
  unfold ClassificationDataloader.str_in,
    ClassificationDataloader.dataset_names,
    ClassificationDataloader.prepare_transforms,
    ClassificationDataloader.pipelines.
  cbn [existsb ClassificationDataloader.dict_get].
  decide_names d; cbn [orb]; eauto.
Qed.

Lemma prepare_transforms_unknown (d : string) :
  ClassificationDataloader.str_in d ClassificationDataloader.dataset_names
  = false ->
  ClassificationDataloader.prepare_transforms d = Py.Raise Py.AssertionError.
Proof.
  unfold ClassificationDataloader.str_in,
    ClassificationDataloader.dataset_names,
    ClassificationDataloader.prepare_transforms,
    ClassificationDataloader.pipelines.
  cbn [existsb ClassificationDataloader.dict_get].
  decide_names d; cbn [orb]; intros H; try discriminate H; reflexivity.
Qed.

Section OrchestratorExtras.
Import Torch ClassificationDataloader.
Variable image : Type.
Variable joinpath : string -> string -> string.
Variable sandbox_dir : string.
Variable construct : dataset_ctor -> Py.result (Dataset image).
Variable RandomState : Type.
Variable seeded : Z -> RandomState.
Variable stratified_shuffle_split :
  list nat -> Py.float -> list Z -> RandomState ->
  Py.result (list nat * list nat).
Variable aux : Type.
Variable split_dataset :
  Dataset image -> option (list (list Z)) -> task_idx_t -> option Z ->
  option string -> option Z -> RandomState ->
  Py.result (Dataset image * aux).
Variable split_dataset_subset :
  Dataset image -> option (list (list Z)) -> list Z -> option Z ->
  option string -> option Z -> option Py.float -> option Z ->
  RandomState -> Py.result (option (Dataset image)).

Let prepare_datasets :=
  ClassificationDataloader.prepare_datasets image joinpath sandbox_dir
    construct.
Let select_training_data :=
  ClassificationDataloader.select_training_data image RandomState aux
    split_dataset.
Let replay_dataset_of :=
  ClassificationDataloader.replay_dataset_of image RandomState
    split_dataset_subset.
Let replay_stage :=
  ClassificationDataloader.replay_stage image RandomState
    split_dataset_subset.
Let semi_supervised_stage :=
  ClassificationDataloader.semi_supervised_stage image RandomState seeded
    stratified_shuffle_split.
Let prepare_data :=
  ClassificationDataloader.prepare_data image joinpath sandbox_dir construct
    RandomState seeded stratified_shuffle_split aux split_dataset
    split_dataset_subset.

(** X7.  A dataset name outside the seven known ones fails the assertion
    of [prepare_transforms] before anything else happens: the call raises
    [AssertionError] whatever the other options are, and no dataset class
    is consulted. *)
Theorem prepare_data_unknown_dataset (a : args) (g : RandomState) :
  str_in (dataset a) dataset_names = false ->
  prepare_data a g = Py.Raise Py.AssertionError.
Proof.
  intros H. unfold prepare_data, ClassificationDataloader.prepare_data.
  rewrite (prepare_transforms_unknown _ H). reflexivity.
Qed.

(** X8.  The validation dataset does not depend on the training directory,
    the training domain or the training transform: two successful calls of
    [prepare_datasets] that agree on the name, [data_dir], [val_dir] and
    the validation transform return the same validation dataset. *)
Theorem validation_dataset_independent_of_train_arguments
    (d : string) (Tt Tt' Tv : transform)
    (data_dir train_dir train_dir' val_dir tdom tdom' : option string)
    (tr va tr' va' : Dataset image) :
  prepare_datasets d Tt Tv data_dir train_dir val_dir tdom
    = Py.Ok (tr, va) ->
  prepare_datasets d Tt' Tv data_dir train_dir' val_dir tdom'
    = Py.Ok (tr', va') ->
  va = va'.
Proof.
  unfold prepare_datasets, ClassificationDataloader.prepare_datasets,
    str_in, dataset_names.
  cbn [existsb].
  decide_names d; cbn [orb negb]; intros H H'; try discriminate H;
    invert_binds; congruence.
Qed.

(** X9.  [train_domain] matters for DomainNet only: for every other dataset
    name the result of [prepare_datasets] is the same whatever
    [train_domain] is. *)
Theorem train_domain_only_for_domainnet
    (d : string) (Tt Tv : transform)
    (data_dir train_dir val_dir tdom tdom' : option string) :
  String.eqb d "domainnet" = false ->
  prepare_datasets d Tt Tv data_dir train_dir val_dir tdom
  = prepare_datasets d Tt Tv data_dir train_dir val_dir tdom'.
Proof.
  intros H. unfold prepare_datasets,
    ClassificationDataloader.prepare_datasets.
  rewrite H. reflexivity.
Qed.

(** X10.  For DomainNet the [train_dir] and [val_dir] arguments are not
    used at all: both datasets are read from [data_dir]. *)
Theorem domainnet_ignores_split_directories
    (Tt Tv : transform)
    (data_dir train_dir train_dir' val_dir val_dir' tdom : option string) :
  prepare_datasets "domainnet" Tt Tv data_dir train_dir val_dir tdom
  = prepare_datasets "domainnet" Tt Tv data_dir train_dir' val_dir' tdom.
Proof. reflexivity. Qed.

Lemma select_unknown_source (a : args) (train : Dataset image)
    (g : RandomState) :
  String.eqb (training_data_source a) "all_tasks" = false ->
  String.eqb (training_data_source a) "current_task" = false ->
  String.eqb (training_data_source a) "seen_tasks" = false ->
  select_training_data a train g = Py.Ok None.
Proof.
  intros H1 H2 H3. unfold select_training_data,
    ClassificationDataloader.select_training_data.
  rewrite H1, H2, H3. reflexivity.
Qed.

(** X11.  A [training_data_source] that is none of ["all_tasks"],
    ["current_task"], ["seen_tasks"] is never accepted: no branch binds
    the training subset, every call raises, and with replay off (and the
    datasets loaded) the exception is the [UnboundLocalError] of the first
    read of [split_train_dataset]. *)
Theorem unknown_source_raises (a : args) (g : RandomState) :
  String.eqb (training_data_source a) "all_tasks" = false ->
  String.eqb (training_data_source a) "current_task" = false ->
  String.eqb (training_data_source a) "seen_tasks" = false ->
  Py.raises (prepare_data a g) = true
  /\ (forall T_train T_val train val,
        prepare_transforms (dataset a) = Py.Ok (T_train, T_val) ->
        prepare_datasets (dataset a) T_train T_val (data_dir a) (train_dir a)
          (val_dir a) (train_domain a) = Py.Ok (train, val) ->
        replay a = false ->
        prepare_data a g
        = Py.Raise (Py.UnboundLocalError "split_train_dataset")).
Proof.
  intros H1 H2 H3.
  assert (Hstage : forall train,
            Py.raises (s <- replay_stage a train None g ;;
                       semi_supervised_stage a s g) = true).
  { intros train. unfold replay_stage,
      ClassificationDataloader.replay_stage.
    rewrite H1. cbn [andb].
    destruct (replay a).
    - destruct (ClassificationDataloader.replay_dataset_of image
                  RandomState split_dataset_subset a train g)
        as [[r |] | e]; reflexivity.
    - reflexivity. }
  split.
  - unfold prepare_data, ClassificationDataloader.prepare_data.
    apply bind_raises. intros [T_train T_val].
    apply bind_raises. intros [train val].
    fold select_training_data.
    rewrite (select_unknown_source a train g H1 H2 H3).
    cbv beta iota delta [Py.bind].
    fold replay_stage. fold semi_supervised_stage.
    specialize (Hstage train).
    destruct (replay_stage a train None g) as [s |]; [| reflexivity].
    cbv beta iota delta [Py.bind] in Hstage.
    destruct (semi_supervised_stage a s g); [discriminate | reflexivity].
  - intros T_train T_val train val HT HD Hr.
    unfold prepare_data.
    rewrite (prepare_data_loaded _ _ _ _ _ _ _ _ _ _ _ _ _ _ train val
               HT HD).
    fold select_training_data.
    rewrite (select_unknown_source a train g H1 H2 H3).
    cbv beta iota delta [Py.bind].
    unfold ClassificationDataloader.replay_stage.
    rewrite H1, Hr. reflexivity.
Qed.

(** X12.  ["seen_tasks"] needs an int task index: with the default [None]
    or with a list, [training_task_idx + 1] raises [TypeError] before the
    partitioner is called. *)
Theorem seen_tasks_needs_int_index (a : args) (g : RandomState)
    (T_train T_val : transform) (train val : Dataset image) :
  prepare_transforms (dataset a) = Py.Ok (T_train, T_val) ->
  prepare_datasets (dataset a) T_train T_val (data_dir a) (train_dir a)
    (val_dir a) (train_domain a) = Py.Ok (train, val) ->
  training_data_source a = "seen_tasks" ->
  (forall t, training_task_idx a <> TaskIdxInt t) ->
  exists msg, prepare_data a g = Py.Raise (Py.TypeError msg).
Proof.
  intros HT HD Hs Hidx. unfold prepare_data.
  rewrite (prepare_data_loaded _ _ _ _ _ _ _ _ _ _ _ _ _ _ train val HT HD).
  rewrite select_seen_tasks by exact Hs.
  destruct (training_task_idx a) as [| t | l].
  - eexists. reflexivity.
  - contradiction (Hidx t). reflexivity.
  - eexists. reflexivity.
Qed.

(** X13.  Replay needs an int task index: where ["current_task"] alone
    accepts whatever index the partitioner accepts (a list, say), turning
    replay on makes [range(training_task_idx)] raise [TypeError] after the
    split has been computed. *)
Theorem replay_needs_int_index (a : args) (g : RandomState)
    (T_train T_val : transform) (train val : Dataset image)
    (s1 : option (Dataset image)) :
  prepare_transforms (dataset a) = Py.Ok (T_train, T_val) ->
  prepare_datasets (dataset a) T_train T_val (data_dir a) (train_dir a)
    (val_dir a) (train_domain a) = Py.Ok (train, val) ->
  String.eqb (training_data_source a) "all_tasks" = false ->
  replay a = true ->
  select_training_data a train g = Py.Ok s1 ->
  (forall t, training_task_idx a <> TaskIdxInt t) ->
  exists msg, prepare_data a g = Py.Raise (Py.TypeError msg).
Proof.
  intros HT HD Hs Hr Hsel Hidx. unfold prepare_data.
  rewrite (prepare_data_loaded _ _ _ _ _ _ _ _ _ _ _ _ _ _ train val HT HD).
  fold select_training_data. rewrite Hsel.
  cbv beta iota delta [Py.bind].
  rewrite replay_stage_replaying by assumption.
  unfold ClassificationDataloader.replay_dataset_of.
  destruct (training_task_idx a) as [| t | l].
  - eexists. reflexivity.
  - contradiction (Hidx t). reflexivity.
  - eexists. reflexivity.
Qed.

(** X14.  A task index that is zero or negative is not rejected: the
    replay sampler is called with an empty list of tasks, as for the first
    task, and under ["seen_tasks"] a negative index asks the partitioner
    for an empty list of tasks. *)
Theorem nonpositive_task_index (a : args) (train : Dataset image)
    (g : RandomState) (t : Z) :
  training_task_idx a = TaskIdxInt t -> t <= 0 ->
  replay_dataset_of a train g
  = split_dataset_subset train (training_tasks a) []
      (training_num_tasks a) (training_split_strategy a)
      (training_split_seed a) (replay_proportion a)
      (replay_memory_bank_size a) g
  /\ (t < 0 -> training_data_source a = "seen_tasks" ->
      select_training_data a train g
      = (' (d, _) <- split_dataset train (training_tasks a) (TaskIdxList [])
                      (training_num_tasks a) (training_split_strategy a)
                      (training_split_seed a) g ;;
         Py.Ok (Some d))).
Proof.
  intros Ht Hle. split.
  - unfold replay_dataset_of, ClassificationDataloader.replay_dataset_of.
    rewrite Ht. cbn [range_task_idx Py.bind].
    rewrite (range_nonpositive (t + 0)) by lia. reflexivity.
  - intros Hneg Hs. unfold select_training_data.
    rewrite select_seen_tasks by exact Hs. rewrite Ht.
    cbn [range_task_idx Py.bind].
    rewrite (range_nonpositive (t + 1)) by lia. reflexivity.
Qed.

Lemma range_succ (t : Z) :
  Py.range (t + 1) = Py.range t ++ (if 0 <=? t then [t] else []).
Proof.
  destruct (0 <=? t) eqn:Ht.
  - apply Z.leb_le in Ht. unfold Py.range.
    replace (Z.to_nat (t + 1)) with (S (Z.to_nat t)) by lia.
    rewrite seq_S, map_app. simpl. rewrite Z2Nat.id by exact Ht.
    reflexivity.
  - apply Z.leb_gt in Ht.
    rewrite (range_nonpositive (t + 1)), (range_nonpositive t) by lia.
    reflexivity.
Qed.

(** X15.  Under ["seen_tasks"] with replay, the tasks asked of the
    partitioner are the replayed tasks followed by the current one, so
    every replayed task is already part of the primary subset: replay then
    only repeats data the primary subset was built from. *)
Theorem seen_tasks_replays_seen_data (a : args) (train : Dataset image)
    (g : RandomState) (t : Z) :
  training_data_source a = "seen_tasks" ->
  training_task_idx a = TaskIdxInt t ->
  select_training_data a train g
  = (' (d, _) <-
       split_dataset train (training_tasks a)
         (TaskIdxList (Py.range t ++ (if 0 <=? t then [t] else [])))
         (training_num_tasks a) (training_split_strategy a)
         (training_split_seed a) g ;;
     Py.Ok (Some d))
  /\ replay_dataset_of a train g
     = split_dataset_subset train (training_tasks a) (Py.range t)
         (training_num_tasks a) (training_split_strategy a)
         (training_split_seed a) (replay_proportion a)
         (replay_memory_bank_size a) g.
Proof.
  intros Hs Ht. split.
  - unfold select_training_data.
    rewrite select_seen_tasks by exact Hs. rewrite Ht.
    cbn [range_task_idx Py.bind]. rewrite range_succ. reflexivity.
  - unfold replay_dataset_of, ClassificationDataloader.replay_dataset_of.
    rewrite Ht. cbn [range_task_idx Py.bind]. rewrite Z.add_0_r.
    reflexivity.
Qed.

(** X16.  Replay never removes, replaces or reorders primary samples: the
    subset leaving the replay stage starts with the primary subset, item
    for item, and is at least as long. *)
Theorem replay_preserves_primary (a : args)
    (train primary out : Dataset image) (g : RandomState) :
  replay_stage a train (Some primary) g = Py.Ok (Some out) ->
  (len primary <= len out)%nat
  /\ forall i, (i < len primary)%nat -> getitem out i = getitem primary i.
Proof.
  intros H. unfold replay_stage in H. apply replay_stage_shape in H.
  destruct H as [-> | [r [_ ->]]].
  - split; [apply Nat.le_refl | reflexivity].
  - split.
    + change (len (ConcatDataset [primary; r]))
        with (len primary + (len r + 0))%nat. lia.
    + intros i Hi. apply (concat_pair_order _ primary r i). exact Hi.
Qed.

(** X18.  With the defaults of the continual-learning options
    ([training_data_source = "all_tasks"], no replay, no semi-supervised
    fraction) the partitioner, the sampler and the generators are never
    consulted: the call is the construction of the two loaders over the
    whole training dataset and the validation dataset as loaded.  It
    returns exactly when the batch size is positive, the number of workers
    is not negative and the training dataset is not empty. *)
Theorem prepare_data_defaults (a : args) (g : RandomState)
    (T_train T_val : transform) (train val : Dataset image) :
  prepare_transforms (dataset a) = Py.Ok (T_train, T_val) ->
  prepare_datasets (dataset a) T_train T_val (data_dir a) (train_dir a)
    (val_dir a) (train_domain a) = Py.Ok (train, val) ->
  training_data_source a = "all_tasks" ->
  replay a = false -> semi_supervised a = None ->
  prepare_data a g
  = prepare_dataloaders image train val (batch_size a) (num_workers a)
  /\ ((exists tl vl, prepare_data a g = Py.Ok (tl, vl))
      <-> (0 < batch_size a /\ 0 <= num_workers a /\ len train <> 0%nat))
  /\ (forall tl vl, prepare_data a g = Py.Ok (tl, vl) ->
        dl_dataset tl = train /\ dl_dataset vl = val).
Proof.
  intros HT HD Hs Hr Hf.
  assert (Heq : prepare_data a g
                = prepare_dataloaders image train val (batch_size a)
                    (num_workers a)).
  { unfold prepare_data.
    rewrite (prepare_data_loaded _ _ _ _ _ _ _ _ _ _ _ _ _ _ train val
               HT HD).
    rewrite select_all_tasks by exact Hs.
    cbv beta iota delta [Py.bind].
    unfold ClassificationDataloader.replay_stage. rewrite Hs, Hr.
    cbn [String.eqb Ascii.eqb Bool.eqb andb].
    rewrite semi_supervised_stage_off by exact Hf. reflexivity. }
  split; [exact Heq |]. split; [split |].
  - intros [tl [vl H]]. rewrite Heq in H.
    apply prepare_dataloaders_Ok in H.
    destruct H as [_ [_ [Hb [Hn Hlen]]]]. repeat split; assumption.
  - intros [Hb [Hn Hlen]]. rewrite Heq.
    rewrite prepare_dataloaders_valid by assumption.
    eexists. eexists. reflexivity.
  - intros tl vl H. rewrite Heq in H.
    apply prepare_dataloaders_Ok in H.
    destruct H as [-> [-> _]]. split; reflexivity.
Qed.

(** The partitioner and the sampler do not read the process-global
    generator. *)
Hypothesis split_dataset_seeded :
  forall d tasks idx n strategy seed g1 g2,
    split_dataset d tasks idx n strategy seed g1 =
    split_dataset d tasks idx n strategy seed g2.
Hypothesis split_dataset_subset_seeded :
  forall d tasks idxs n strategy seed p m g1 g2,
    split_dataset_subset d tasks idxs n strategy seed p m g1 =
    split_dataset_subset d tasks idxs n strategy seed p m g2.

(** X17.  The stratified subsampling is the only place where
    [prepare_data] itself reaches the process-global generator: with no
    semi-supervised fraction the result is the same for every state of
    that generator, even when no seed is given. *)
Theorem prepare_data_without_subsampling_ignores_generator (a : args)
    (g1 g2 : RandomState) :
  semi_supervised a = None ->
  prepare_data a g1 = prepare_data a g2.
Proof.
  intros Hf. unfold prepare_data, ClassificationDataloader.prepare_data.
  destruct (prepare_transforms (dataset a)) as [[T_train T_val] | e];
    [cbv beta iota delta [Py.bind] | reflexivity].
  destruct (ClassificationDataloader.prepare_datasets image joinpath
              sandbox_dir construct (dataset a) T_train T_val (data_dir a)
              (train_dir a) (val_dir a) (train_domain a))
    as [[train val] | e]; [| reflexivity].
  rewrite (select_training_data_seeded _ _ _ _ split_dataset_seeded
             a train g1 g2).
  destruct (ClassificationDataloader.select_training_data image RandomState
              aux split_dataset a train g2) as [s1 | e]; [| reflexivity].
  rewrite (replay_stage_seeded _ _ _ split_dataset_subset_seeded
             a train s1 g1 g2).
  destruct (ClassificationDataloader.replay_stage image RandomState
              split_dataset_subset a train s1 g2) as [s2 | e];
    [| reflexivity].
  unfold ClassificationDataloader.semi_supervised_stage.
  rewrite Hf. reflexivity.
Qed.

End OrchestratorExtras.

(* ===================================================================== *)
(** * Further concrete runs                                                *)
(* ===================================================================== *)

Lemma training_step_view_symmetry_witness :
  Demo.training_step Demo.half_lamb_self DemoExtra.views_batch 0
  = Demo.training_step Demo.half_lamb_self DemoExtra.swapped_batch 0.
Proof.
  exact (training_step_view_symmetry Demo.prec Demo.emax Demo.embedding
           (Predictive.step_out Demo.embedding) Demo.distill_predictor
           (SpecModel.byol_loss_func Demo.prec Demo.emax)
           Demo.super_training_step Demo.half_lamb_self
           DemoExtra.views_batch DemoExtra.swapped_batch 0 Demo.t_one
           [Demo.t_one] [DemoExtra.t_two] [DemoExtra.t_two]
           [Demo.t_one; DemoExtra.t_two] eq_refl eq_refl).
Defined.

Lemma training_step_nan_propagates_witness :
  exists r, Demo.training_step Demo.half_lamb_self Demo.nan_batch 0 = Py.Ok r
            /\ Predictive.returned_loss r = S754_nan.
Proof.
  apply (training_step_nan_propagates Demo.prec Demo.emax Demo.embedding
           (Predictive.step_out Demo.embedding) Demo.distill_predictor
           (SpecModel.byol_loss_func Demo.prec Demo.emax)
           Demo.super_training_step Demo.half_lamb_self Demo.nan_batch 0
           Demo.t_one [Demo.t_one] [Demo.t_one] [Demo.t_one] [S754_nan]
           eq_refl).
  right; right. vm_compute. reflexivity.
Defined.

Lemma predictor_lr_negative_lamb_witness :
  Predictive.distill_predictor_lr DemoExtra.negative_lamb_self
  = Py.Ok (SFopp (Py.float_of_int 2)).
Proof.
  assert (Hneg : Py.float_lt
                   (Predictive.distill_lamb DemoExtra.negative_lamb_self)
                   (Py.float_of_int 0) = true) by (vm_compute; reflexivity).
  assert (Hlr : Py.float_ge (Predictive.lr DemoExtra.negative_lamb_self)
                  (Py.float_of_int 0) = true) by (vm_compute; reflexivity).
  rewrite (proj1 (predictor_lr_negative_lamb DemoExtra.negative_lamb_self
                    Hneg Hlr)).
  vm_compute. reflexivity.
Defined.

Lemma predictor_lr_nan_lamb_witness :
  Predictive.distill_predictor_lr DemoExtra.nan_lamb_self = Py.Ok S754_nan.
Proof.
  exact (predictor_lr_nan_lamb DemoExtra.nan_lamb_self eq_refl).
Defined.

Lemma learnable_params_extends_parent_witness :
  exists rate,
    DemoExtra.learnable_params Demo.half_lamb_self
    = Py.Ok (DemoExtra.parent_groups ++
             [Predictive.mk_param_group "distill_predictor" tt (Some rate)
                (Some Demo.one)]).
Proof.
  destruct (DemoExtra.learnable_params Demo.half_lamb_self) as [groups | e]
    eqn:H; [| vm_compute in H; discriminate H].
  destruct (proj1 (learnable_params_extends_parent unit tt
                     (Py.Ok DemoExtra.parent_groups) Demo.half_lamb_self)
              groups H) as [parent [rate [Hp [_ [Hg _]]]]].
  injection Hp as <-. exists rate. rewrite Hg. reflexivity.
Defined.

Lemma prepare_data_unknown_dataset_witness :
  Demo.prepare_data DemoExtra.unknown_dataset_args 0%nat
  = Py.Raise Py.AssertionError.
Proof.
  exact (prepare_data_unknown_dataset Demo.image Demo.joinpath
           Demo.sandbox_dir Demo.construct Demo.RandomState Demo.seeded
           Demo.stratified_shuffle_split (Torch.Dataset Demo.image)
           Demo.split_dataset Demo.split_dataset_subset
           DemoExtra.unknown_dataset_args 0%nat eq_refl).
Defined.

Lemma validation_dataset_independent_of_train_arguments_witness :
  exists tr va tr' va',
    DemoExtra.prepare_datasets "imagenet"
      (ClassificationDataloader.TrainTransform
         ClassificationDataloader.imagenet_pipeline)
      (ClassificationDataloader.ValTransform
         ClassificationDataloader.imagenet_pipeline)
      None None None None = Py.Ok (tr, va)
    /\ DemoExtra.prepare_datasets "imagenet"
         (ClassificationDataloader.TrainTransform
            ClassificationDataloader.custom_pipeline)
         (ClassificationDataloader.ValTransform
            ClassificationDataloader.imagenet_pipeline)
         None (Some "subset/train") None (Some "real") = Py.Ok (tr', va')
    /\ va = va'.
Proof.
  exists Demo.train_dataset, Demo.val_dataset, Demo.train_dataset,
    Demo.val_dataset.
  split; [reflexivity |]. split; [reflexivity |].
  exact (validation_dataset_independent_of_train_arguments Demo.image
           Demo.joinpath Demo.sandbox_dir Demo.construct "imagenet"
           (ClassificationDataloader.TrainTransform
              ClassificationDataloader.imagenet_pipeline)
           (ClassificationDataloader.TrainTransform
              ClassificationDataloader.custom_pipeline)
           (ClassificationDataloader.ValTransform
              ClassificationDataloader.imagenet_pipeline)
           None None (Some "subset/train") None None (Some "real")
           Demo.train_dataset Demo.val_dataset Demo.train_dataset
           Demo.val_dataset eq_refl eq_refl).
Defined.

Lemma train_domain_only_for_domainnet_witness :
  DemoExtra.prepare_datasets "stl10"
    (ClassificationDataloader.TrainTransform
       ClassificationDataloader.stl_pipeline)
    (ClassificationDataloader.ValTransform
       ClassificationDataloader.stl_pipeline)
    None None None None
  = DemoExtra.prepare_datasets "stl10"
      (ClassificationDataloader.TrainTransform
         ClassificationDataloader.stl_pipeline)
      (ClassificationDataloader.ValTransform
         ClassificationDataloader.stl_pipeline)
      None None None (Some "real").
Proof.
  exact (train_domain_only_for_domainnet Demo.image Demo.joinpath
           Demo.sandbox_dir Demo.construct "stl10"
           (ClassificationDataloader.TrainTransform
              ClassificationDataloader.stl_pipeline)
           (ClassificationDataloader.ValTransform
              ClassificationDataloader.stl_pipeline)
           None None None None (Some "real") eq_refl).
Defined.

Lemma unknown_source_raises_witness :
  Demo.prepare_data DemoExtra.unknown_source_args 0%nat
  = Py.Raise (Py.UnboundLocalError "split_train_dataset").
Proof.
  exact (proj2 (unknown_source_raises Demo.image Demo.joinpath
                  Demo.sandbox_dir Demo.construct Demo.RandomState
                  Demo.seeded Demo.stratified_shuffle_split
                  (Torch.Dataset Demo.image) Demo.split_dataset
                  Demo.split_dataset_subset DemoExtra.unknown_source_args
                  0%nat eq_refl eq_refl eq_refl)
           (ClassificationDataloader.TrainTransform
              ClassificationDataloader.cifar_pipeline)
           (ClassificationDataloader.ValTransform
              ClassificationDataloader.cifar_pipeline)
           Demo.train_dataset Demo.val_dataset eq_refl eq_refl eq_refl).
Defined.

Lemma seen_tasks_needs_int_index_witness :
  exists msg,
    Demo.prepare_data DemoExtra.seen_no_index_args 0%nat
    = Py.Raise (Py.TypeError msg).
Proof.
  apply (seen_tasks_needs_int_index Demo.image Demo.joinpath
           Demo.sandbox_dir Demo.construct Demo.RandomState Demo.seeded
           Demo.stratified_shuffle_split (Torch.Dataset Demo.image)
           Demo.split_dataset Demo.split_dataset_subset
           DemoExtra.seen_no_index_args 0%nat
           (ClassificationDataloader.TrainTransform
              ClassificationDataloader.cifar_pipeline)
           (ClassificationDataloader.ValTransform
              ClassificationDataloader.cifar_pipeline)
           Demo.train_dataset Demo.val_dataset eq_refl eq_refl eq_refl).
  intros t H. discriminate H.
Defined.

Lemma replay_needs_int_index_witness :
  exists msg,
    Demo.prepare_data DemoExtra.list_index_args 0%nat
    = Py.Raise (Py.TypeError msg).
Proof.
  apply (replay_needs_int_index Demo.image Demo.joinpath
           Demo.sandbox_dir Demo.construct Demo.RandomState Demo.seeded
           Demo.stratified_shuffle_split (Torch.Dataset Demo.image)
           Demo.split_dataset Demo.split_dataset_subset
           DemoExtra.list_index_args 0%nat
           (ClassificationDataloader.TrainTransform
              ClassificationDataloader.cifar_pipeline)
           (ClassificationDataloader.ValTransform
              ClassificationDataloader.cifar_pipeline)
           Demo.train_dataset Demo.val_dataset
           (Some DemoExtra.tasks01_subset)
           eq_refl eq_refl eq_refl eq_refl eq_refl).
  intros t H. discriminate H.
Defined.

Lemma nonpositive_task_index_witness :
  Demo.replay_dataset_of DemoExtra.seen_negative_args Demo.train_dataset 0%nat
  = Demo.split_dataset_subset Demo.train_dataset (Some [[0]; [1]; [2]]) []
      (Some 3) (Some "class") (Some 5) (Some Demo.one) None 0%nat.
Proof.
  assert (Hneg : -1 <= 0) by lia.
  exact (proj1 (nonpositive_task_index Demo.image Demo.RandomState
                  (Torch.Dataset Demo.image) Demo.split_dataset
                  Demo.split_dataset_subset DemoExtra.seen_negative_args
                  Demo.train_dataset 0%nat (-1) eq_refl Hneg)).
Defined.

Lemma seen_tasks_replays_seen_data_witness :
  Demo.replay_dataset_of Demo.seen_tasks_args Demo.train_dataset 0%nat
  = Demo.split_dataset_subset Demo.train_dataset (Some [[0]; [1]; [2]])
      (Py.range 1) (Some 3) (Some "class") (Some 5) (Some Demo.one) None
      0%nat.
Proof.
  exact (proj2 (seen_tasks_replays_seen_data Demo.image Demo.RandomState
                  (Torch.Dataset Demo.image) Demo.split_dataset
                  Demo.split_dataset_subset Demo.seen_tasks_args
                  Demo.train_dataset 0%nat 1 eq_refl eq_refl)).
Defined.

Lemma replay_preserves_primary_witness :
  (Torch.len Demo.task2_subset
   <= Torch.len (Torch.ConcatDataset [Demo.task2_subset; Demo.task2_replay]))%nat
  /\ forall i, (i < Torch.len Demo.task2_subset)%nat ->
       Torch.getitem
         (Torch.ConcatDataset [Demo.task2_subset; Demo.task2_replay]) i
       = Torch.getitem Demo.task2_subset i.
Proof.
  exact (replay_preserves_primary Demo.image Demo.RandomState
           Demo.split_dataset_subset Demo.last_task_args Demo.train_dataset
           Demo.task2_subset
           (Torch.ConcatDataset [Demo.task2_subset; Demo.task2_replay])
           0%nat eq_refl).
Defined.

Lemma prepare_data_defaults_witness :
  exists tl vl,
    Demo.prepare_data (ClassificationDataloader.default_args "cifar10") 0%nat
    = Py.Ok (tl, vl)
    /\ dl_dataset tl = Demo.train_dataset /\ dl_dataset vl = Demo.val_dataset.
Proof.
  destruct (prepare_data_defaults Demo.image Demo.joinpath Demo.sandbox_dir
              Demo.construct Demo.RandomState Demo.seeded
              Demo.stratified_shuffle_split (Torch.Dataset Demo.image)
              Demo.split_dataset Demo.split_dataset_subset
              (ClassificationDataloader.default_args "cifar10") 0%nat
              (ClassificationDataloader.TrainTransform
                 ClassificationDataloader.cifar_pipeline)
              (ClassificationDataloader.ValTransform
                 ClassificationDataloader.cifar_pipeline)
              Demo.train_dataset Demo.val_dataset
              eq_refl eq_refl eq_refl eq_refl eq_refl)
    as [_ [Hiff Hds]].
  assert (Hok : 0 < batch_size (default_args "cifar10")
                /\ 0 <= num_workers (default_args "cifar10")
                /\ len Demo.train_dataset <> 0%nat).
  { split; [simpl; lia |]. split; [simpl; lia | simpl; discriminate]. }
  destruct (proj2 Hiff Hok) as [tl [vl H]].
  exists tl, vl. split; [exact H |]. exact (Hds tl vl H).
Defined.

Lemma prepare_data_without_subsampling_ignores_generator_witness :
  Demo.prepare_data (ClassificationDataloader.default_args "cifar10") 0%nat
  = Demo.prepare_data (ClassificationDataloader.default_args "cifar10") 9%nat.
Proof.
  exact (prepare_data_without_subsampling_ignores_generator Demo.image
           Demo.joinpath Demo.sandbox_dir Demo.construct Demo.RandomState
           Demo.seeded Demo.stratified_shuffle_split
           (Torch.Dataset Demo.image) Demo.split_dataset
           Demo.split_dataset_subset
           (fun d tasks idx n strategy seed g1 g2 => eq_refl)
           (fun d tasks idxs n strategy seed p m g1 g2 => eq_refl)
           (ClassificationDataloader.default_args "cifar10") 0%nat 9%nat
           eq_refl).
Defined.
